(** * Policy evaluation of fidesctl ([fidesctl/core/evaluate.py])

    A shallow embedding of the policy-evaluation module: the comparison of
    a rule dimension against a declaration, the exhaustive rule scan
    [execute_evaluation], the policy resolver [get_evaluation_policies] and
    the [evaluate] workflow, whose console output, remote calls and raised
    [EvaluationError] are recorded by a small trace-and-exception monad. *)

From Stdlib Require Import String List Bool Ascii Lia Permutation.
Import ListNotations.
Open Scope string_scope.
Open Scope list_scope.

(** ** Data model ([fideslang.models]) *)

(** [InclusionEnum] is a [str] enum with the members ANY, ALL and NONE. *)
Inductive InclusionEnum := ANY | ALL | NONE.

(** [StatusEnum] is a [str] enum: its members compare equal to their
    string values, which [evaluate] relies on ([status == "FAIL"]). *)
Inductive StatusEnum := FAIL | PASS.

Definition StatusEnum_value (s : StatusEnum) : string :=
  match s with FAIL => "FAIL" | PASS => "PASS" end.

(** A fides key is a string. *)
Definition FidesKey := string.

Module PrivacyRule.
(** One dimension of a rule: an inclusion mode and a list of keys. *)
Record t := mk { inclusion : InclusionEnum; values : list FidesKey }.
End PrivacyRule.

Module Rule.
Record t := mk {
  name : string;
  data_categories : PrivacyRule.t;
  data_uses : PrivacyRule.t;
  data_subjects : PrivacyRule.t;
  data_qualifier : FidesKey }.
End Rule.

Module Policy.
Record t := mk { fides_key : FidesKey; rules : list Rule.t }.
End Policy.

Module PrivacyDeclaration.
(** A declaration has a single [data_use], not a list. *)
Record t := mk {
  name : string;
  data_categories : list FidesKey;
  data_use : FidesKey;
  data_subjects : list FidesKey;
  data_qualifier : FidesKey }.
End PrivacyDeclaration.

Module System.
Record t := mk {
  fides_key : FidesKey;
  privacy_declarations : list PrivacyDeclaration.t }.
End System.

Module Taxonomy.
(** The policies and systems of a taxonomy; the other resource kinds
    (data categories, uses, subjects, qualifiers) are kept as the keys
    they define, which is all that hydration needs to know of them. *)
Record t := mk {
  policy : list Policy.t;
  system : list System.t;
  other_keys : list FidesKey }.

Definition set_policy (tx : t) (ps : list Policy.t) : t :=
  mk ps (system tx) (other_keys tx).
End Taxonomy.

Module Evaluation.
Record t := mk {
  status : StatusEnum;
  details : list string;
  message : option string }.

(** [evaluation.message = message] *)
Definition set_message (e : t) (m : string) : t :=
  mk (status e) (details e) (Some m).
End Evaluation.

(** ** Python built-ins *)

(** [x in xs] on a list of strings. *)
Definition py_in (x : string) (xs : list string) : bool :=
  existsb (String.eqb x) xs.

(** [any] and [all] on a list of booleans. *)
Definition py_any (bs : list bool) : bool := existsb (fun b => b) bs.
Definition py_all (bs : list bool) : bool := forallb (fun b => b) bs.

(** ** [compare_rule_to_declaration] *)

(** [inclusion_map]: ANY -> any, ALL -> all, NONE -> lambda x: not any(x). *)
Definition inclusion_map (i : InclusionEnum) : list bool -> bool :=
  match i with
  | ANY => py_any
  | ALL => py_all
  | NONE => fun x => negb (py_any x)
  end.

Definition compare_rule_to_declaration (rule_types declaration_types : list FidesKey)
    (rule_inclusion : InclusionEnum) : bool :=
  let matching_data_categories :=
    map (fun data_category => py_in data_category rule_types) declaration_types in
  inclusion_map rule_inclusion matching_data_categories.

(** ** [execute_evaluation] *)

(** ["Declaration ({}) of System ({}) failed Rule ({}) from Policy ({})".format(...)] *)
Definition violation_detail (declaration_name system_key rule_name policy_key : string)
    : string :=
  "Declaration (" ++ declaration_name ++ ") of System (" ++ system_key
  ++ ") failed Rule (" ++ rule_name ++ ") from Policy (" ++ policy_key ++ ")".

(** The body of the innermost loop: the list of detail strings that one
    (policy, rule, system, declaration) quadruple appends. *)
Definition evaluate_declaration (policy : Policy.t) (rule : Rule.t)
    (system : System.t) (declaration : PrivacyDeclaration.t) : list string :=
  let data_category_result :=
    compare_rule_to_declaration
      (PrivacyRule.values (Rule.data_categories rule))
      (PrivacyDeclaration.data_categories declaration)
      (PrivacyRule.inclusion (Rule.data_categories rule)) in
  (* A declaration only has one data use, so it gets put in a list *)
  let data_use_result :=
    compare_rule_to_declaration
      (PrivacyRule.values (Rule.data_uses rule))
      [PrivacyDeclaration.data_use declaration]
      (PrivacyRule.inclusion (Rule.data_uses rule)) in
  let data_subject_result :=
    compare_rule_to_declaration
      (PrivacyRule.values (Rule.data_subjects rule))
      (PrivacyDeclaration.data_subjects declaration)
      (PrivacyRule.inclusion (Rule.data_subjects rule)) in
  let data_qualifier_result :=
    String.eqb (PrivacyDeclaration.data_qualifier declaration) (Rule.data_qualifier rule) in
  if py_all [data_category_result; data_subject_result; data_use_result;
             data_qualifier_result]
  then [violation_detail (PrivacyDeclaration.name declaration) (System.fides_key system)
          (Rule.name rule) (Policy.fides_key policy)]
  else [].

(** The four nested [for] loops, each extending [evaluation_detail_list]. *)
Definition execute_evaluation (taxonomy : Taxonomy.t) : Evaluation.t :=
  let evaluation_detail_list :=
    fold_left (fun acc policy =>
      fold_left (fun acc rule =>
        fold_left (fun acc system =>
          fold_left (fun acc declaration =>
            acc ++ evaluate_declaration policy rule system declaration)
            (System.privacy_declarations system) acc)
          (Taxonomy.system taxonomy) acc)
        (Policy.rules policy) acc)
      (Taxonomy.policy taxonomy) [] in
  let status_enum :=
    if Nat.ltb 0 (length evaluation_detail_list) then FAIL else PASS in
  Evaluation.mk status_enum evaluation_detail_list None.

(** ** Effects: console output, remote calls and [EvaluationError] *)

Inductive exn := EvaluationError.

(** Observable events of a run, in order. [Executed] is a ghost event
    placed where [execute_evaluation] is called, carrying its result. *)
Inductive event :=
| EchoRed (s : string)
| EchoGreen (s : string)
| PrintLine (s : string)
| PrettyEcho (e : Evaluation.t)
| RemoteLs (resource_type : string)
| RemoteGet (resource_type : string) (resource_key : FidesKey)
| Hydrate (missing_resource_keys : list FidesKey)
| Executed (e : Evaluation.t).

Inductive outcome (A : Type) := Ok (a : A) | Raised (e : exn).
Arguments Ok {A} a.
Arguments Raised {A} e.

(** A computation appends events to the trace and returns or raises. *)
Definition M (A : Type) : Type := list event -> outcome A * list event.

Definition ret {A} (a : A) : M A := fun tr => (Ok a, tr).

Definition bind {A B} (m : M A) (f : A -> M B) : M B :=
  fun tr =>
    match m tr with
    | (Ok a, tr') => f a tr'
    | (Raised e, tr') => (Raised e, tr')
    end.

Definition emit (ev : event) : M unit := fun tr => (Ok tt, tr ++ [ev]).

Definition raise {A} (e : exn) : M A := fun tr => (Raised e, tr).

Notation "'let!' x := c1 'in' c2" := (bind c1 (fun x => c2))
  (at level 200, x name, c1 at level 100, c2 at level 200).
Notation "c1 ;; c2" := (bind c1 (fun _ : unit => c2))
  (at level 100, right associativity).

Fixpoint mapM {A B} (f : A -> M B) (xs : list A) : M (list B) :=
  match xs with
  | [] => ret []
  | x :: xs' => let! y := f x in let! ys := mapM f xs' in ret (y :: ys)
  end.

(** Truthiness of a Python string: only the empty string is false. *)
Definition py_truthy (s : string) : bool := negb (String.eqb s "").

Definition newline : string := String (ascii_of_nat 10) EmptyString.

Section Evaluate.

(** The policies stored on the fides server. *)
Variable server_policies : list Policy.t.

(** [fidesctl.core.parse.parse]: manifests directory to taxonomy. *)
Variable parse : string -> Taxonomy.t.

(** [fideslang.relationships]: keys referenced but not defined in the
    taxonomy, and the taxonomy once those are fetched from the server. *)
Variable get_referenced_missing_keys : Taxonomy.t -> list FidesKey.
Variable hydrate_missing_resources : list FidesKey -> Taxonomy.t -> Taxonomy.t.

(** Modelled from the spec: [api_helpers.get_server_resource], the remote
    [get(resource_type, key) -> Resource | None]: the stored policy with
    that key, or [None]. *)
Definition get_server_resource (resource_type : string) (resource_key : FidesKey)
    : M (option Policy.t) :=
  emit (RemoteGet resource_type resource_key) ;;
  ret (find (fun p => String.eqb (Policy.fides_key p) resource_key) server_policies).

(** Modelled from the spec: [handle_cli_response(api.ls(...)).json()], the
    remote [list(resource_type) -> [key]]: the keys of the stored policies
    (a successful response). *)
Definition api_ls (resource_type : string) : M (list FidesKey) :=
  emit (RemoteLs resource_type) ;;
  ret (map Policy.fides_key server_policies).

(** Modelled from the spec: [api_helpers.get_server_resources], the remote
    [get_many(resource_type, keys) -> [Resource]]: every key fetched in
    turn, the ones found kept in order. *)
Definition get_server_resources (resource_type : string) (existing_keys : list FidesKey)
    : M (list Policy.t) :=
  let! found := mapM (get_server_resource resource_type) existing_keys in
  ret (flat_map (fun o => match o with Some p => [p] | None => [] end) found).

Definition get_all_server_policies (exclude : option (list FidesKey))
    : M (list Policy.t) :=
  let exclude := match exclude with Some e => e | None => [] end in
  let! ls_response := api_ls "policy" in
  let policy_keys :=
    filter (fun k => negb (py_in k exclude)) ls_response in
  get_server_resources "policy" policy_keys.

(** Lines 55-61 of [get_evaluation_policies]: no (truthy) key given. *)
Definition get_all_evaluation_policies (local_policies : list Policy.t)
    : M (list Policy.t) :=
  let local_policy_keys :=
    match local_policies with
    | [] => None
    | _ => Some (map Policy.fides_key local_policies)
    end in
  let! server := get_all_server_policies local_policy_keys in
  ret (local_policies ++ server).

(** [evaluate_fides_key] is [None] when no key is passed; [if
    evaluate_fides_key:] tests its truthiness. *)
Definition get_evaluation_policies (local_policies : list Policy.t)
    (evaluate_fides_key : option FidesKey) : M (list Policy.t) :=
  match evaluate_fides_key with
  | Some key =>
      if py_truthy key then
        let local_policy_found :=
          find (fun p => String.eqb (Policy.fides_key p) key) local_policies in
        match local_policy_found with
        | Some p => ret [p]
        | None =>
            let! server_policy_found := get_server_resource "policy" key in
            ret (match server_policy_found with Some p => [p] | None => [] end)
        end
      else get_all_evaluation_policies local_policies
  | None => get_all_evaluation_policies local_policies
  end.

Definition validate_policies_exist (policies : list Policy.t)
    (evaluate_fides_key : option FidesKey) : M unit :=
  match policies with
  | [] =>
      emit (EchoRed
        (match evaluate_fides_key with
         | Some key =>
             if py_truthy key then "Policy " ++ key ++ " could not be found"
             else "No Policies found to evaluate"
         | None => "No Policies found to evaluate"
         end)) ;;
      raise EvaluationError
  | _ => ret tt
  end.

Definition evaluate (manifests_dir : string) (fides_key : option FidesKey)
    (message : string) (dry : bool) : M Evaluation.t :=
  let taxonomy := parse manifests_dir in
  let! policies := get_evaluation_policies (Taxonomy.policy taxonomy) fides_key in
  let taxonomy := Taxonomy.set_policy taxonomy policies in
  validate_policies_exist policies fides_key ;;
  emit (EchoGreen ("Evaluating the following policies:" ++ newline
                   ++ String.concat newline (map Policy.fides_key policies))) ;;
  emit (PrintLine "----------") ;;
  emit (EchoGreen "Checking for missing resources...") ;;
  let missing_resource_keys := get_referenced_missing_keys taxonomy in
  let! taxonomy :=
    match missing_resource_keys with
    | [] => ret taxonomy
    | _ =>
        emit (EchoGreen ("Fetching the following missing resources from the server:"
                         ++ newline ++ String.concat newline missing_resource_keys)) ;;
        emit (EchoGreen "Hydrating the taxonomy...") ;;
        emit (Hydrate missing_resource_keys) ;;
        ret (hydrate_missing_resources missing_resource_keys taxonomy)
    end in
  emit (EchoGreen "Executing evaluations...") ;;
  let evaluation := execute_evaluation taxonomy in
  emit (Executed evaluation) ;;
  let evaluation := Evaluation.set_message evaluation message in
  if String.eqb (StatusEnum_value (Evaluation.status evaluation)) "FAIL" then
    emit (PrettyEcho evaluation) ;;
    raise EvaluationError
  else
    (if negb dry then emit (EchoGreen "Sending the evaluation results to the server...")
     else ret tt) ;;
    emit (EchoGreen "Evaluation passed!") ;;
    ret evaluation.

End Evaluate.

(** ** The migration [d5807bacca0a] ([fidesapi/migrations/versions]) *)

Module Migration.

(** Column types used by the migration: [sa.Text()] and
    [postgresql.TIMESTAMP(timezone=...)]. *)
Inductive SqlType := Text | TIMESTAMP (timezone : bool).

(** [sa.Column(name, type, nullable=..., server_default=...,
    autoincrement=...)]; [autoincrement] is [None] for the default
    ["auto"]. *)
Record Column := mk_col {
  name : string;
  type_ : SqlType;
  nullable : bool;
  server_default : option string;
  autoincrement : option bool }.

(** A database schema: tables in order, each with its columns in order. *)
Definition Schema := list (string * list Column).

Fixpoint lookup (table : string) (s : Schema) : option (list Column) :=
  match s with
  | [] => None
  | (n, cs) :: s' => if String.eqb n table then Some cs else lookup table s'
  end.

Definition update (table : string) (f : list Column -> list Column) (s : Schema) : Schema :=
  map (fun e => if String.eqb (fst e) table then (fst e, f (snd e)) else e) s.

Definition has_column (column_name : string) (cs : list Column) : bool :=
  existsb (fun c => String.eqb (name c) column_name) cs.

Definition remove_column (column_name : string) (cs : list Column) : list Column :=
  filter (fun c => negb (String.eqb (name c) column_name)) cs.

(** [op.add_column(table, column)]: [ALTER TABLE ... ADD COLUMN], which
    fails ([None]) on a missing table or an existing column name, and
    otherwise appends the column. *)
Definition add_column (table : string) (column : Column) (s : Schema) : option Schema :=
  match lookup table s with
  | None => None
  | Some cs =>
      if has_column (name column) cs then None
      else Some (update table (fun cs => cs ++ [column]) s)
  end.

(** [op.drop_column(table, column_name)]: [ALTER TABLE ... DROP COLUMN],
    which fails on a missing table or column. *)
Definition drop_column (table column_name : string) (s : Schema) : option Schema :=
  match lookup table s with
  | None => None
  | Some cs =>
      if has_column column_name cs then Some (update table (remove_column column_name) s)
      else None
  end.

Definition obind {A B} (o : option A) (f : A -> option B) : option B :=
  match o with Some a => f a | None => None end.

Definition revision : string := "d5807bacca0a".
Definition down_revision : string := "7c851d8a102a".

Definition legal_basis : Column := mk_col "legal_basis" Text true None None.
Definition purpose_of_processing : Column :=
  mk_col "purpose_of_processing" Text true None None.
Definition recipient : Column := mk_col "recipient" Text true None None.

(** [sa.Column('created_at', postgresql.TIMESTAMP(timezone=True),
    server_default=sa.text('now()'), autoincrement=False, nullable=True)] *)
Definition created_at : Column :=
  mk_col "created_at" (TIMESTAMP true) true (Some "now()") (Some false).
Definition updated_at : Column :=
  mk_col "updated_at" (TIMESTAMP true) true (Some "now()") (Some false).

Definition upgrade (s : Schema) : option Schema :=
  obind (add_column "data_uses" legal_basis s) (fun s =>
  obind (add_column "data_uses" purpose_of_processing s) (fun s =>
  obind (add_column "data_uses" recipient s) (fun s =>
  obind (drop_column "evaluations" "updated_at" s) (fun s =>
  drop_column "evaluations" "created_at" s)))).

Definition downgrade (s : Schema) : option Schema :=
  obind (add_column "evaluations" created_at s) (fun s =>
  obind (add_column "evaluations" updated_at s) (fun s =>
  obind (drop_column "data_uses" "recipient" s) (fun s =>
  obind (drop_column "data_uses" "purpose_of_processing" s) (fun s =>
  drop_column "data_uses" "legal_basis" s)))).

End Migration.

(** ** Notions used in the statements *)

(** The violation test of one (rule, declaration) pair, as the spec states
    it: the three dimension comparisons (the single data use wrapped in a
    one-element list) and equality of the qualifiers. *)
Definition all_four_match (rule : Rule.t) (declaration : PrivacyDeclaration.t) : bool :=
  compare_rule_to_declaration (PrivacyRule.values (Rule.data_categories rule))
    (PrivacyDeclaration.data_categories declaration)
    (PrivacyRule.inclusion (Rule.data_categories rule))
  && compare_rule_to_declaration (PrivacyRule.values (Rule.data_uses rule))
       [PrivacyDeclaration.data_use declaration]
       (PrivacyRule.inclusion (Rule.data_uses rule))
  && compare_rule_to_declaration (PrivacyRule.values (Rule.data_subjects rule))
       (PrivacyDeclaration.data_subjects declaration)
       (PrivacyRule.inclusion (Rule.data_subjects rule))
  && String.eqb (PrivacyDeclaration.data_qualifier declaration) (Rule.data_qualifier rule).

(** [s] contains [sub]. *)
Definition substring_of (sub s : string) : Prop :=
  exists pre post, s = (pre ++ sub ++ post)%string.

(** A computation that appends the same events, all satisfying [P], and
    returns the same outcome whatever the trace it starts from. *)
Definition oblivious {A} (P : event -> Prop) (m : M A) : Prop :=
  exists r l, Forall P l /\ forall tr, m tr = (r, tr ++ l).

Definition remote_event (ev : event) : Prop :=
  match ev with RemoteLs _ | RemoteGet _ _ => True | _ => False end.

Definition not_executed (ev : event) : Prop :=
  match ev with Executed _ => False | _ => True end.

(** ** Concrete inputs *)

(** A rule forbidding marketing use of identified customer content. *)
Definition rule_no_marketing : Rule.t :=
  Rule.mk "no_marketing"
    (PrivacyRule.mk ANY ["customer_content"])
    (PrivacyRule.mk ANY ["marketing"])
    (PrivacyRule.mk ANY ["customer"])
    "identified_data".

Definition policy_a : Policy.t := Policy.mk "policy_a" [rule_no_marketing].
Definition policy_b : Policy.t := Policy.mk "policy_b" [].
(** The server's version of [policy_b], which differs from the local one. *)
Definition policy_b_server : Policy.t := Policy.mk "policy_b" [rule_no_marketing].
Definition policy_c : Policy.t := Policy.mk "policy_c" [].

Definition decl_marketing_emails : PrivacyDeclaration.t :=
  PrivacyDeclaration.mk "marketing_emails" ["customer_content"] "marketing"
    ["customer"] "identified_data".

Definition system_mailer : System.t := System.mk "mailer" [decl_marketing_emails].

(** Manifests with local policies a and b and the mailer system. *)
Definition parse_ab (_ : string) : Taxonomy.t :=
  Taxonomy.mk [policy_a; policy_b] [system_mailer] [].

(** Manifests with local policy b only and the mailer system. *)
Definition parse_b (_ : string) : Taxonomy.t :=
  Taxonomy.mk [policy_b] [system_mailer] [].

(** Manifests with no policy and no system. *)
Definition parse_empty (_ : string) : Taxonomy.t := Taxonomy.mk [] [] [].

Definition no_missing_keys (_ : Taxonomy.t) : list FidesKey := [].
Definition no_hydration (_ : list FidesKey) (taxonomy : Taxonomy.t) : Taxonomy.t := taxonomy.

(** [evaluate] of manifests a, b against a server holding b and c. *)
Definition run_ab : outcome Evaluation.t * list event :=
  evaluate [policy_b_server; policy_c] parse_ab no_missing_keys no_hydration
    "manifests" None "nightly" true [].

(** [evaluate] of manifest b alone, with policy b as target key. *)
Definition run_b : outcome Evaluation.t * list event :=
  evaluate [policy_c] parse_b no_missing_keys no_hydration
    "manifests" (Some "policy_b"%string) "nightly" false [].

(** [evaluate] of policy a alone, with a system referenced but missing
    from the manifests; hydration brings in the mailer. *)
Definition parse_a_only (_ : string) : Taxonomy.t := Taxonomy.mk [policy_a] [] [].

Definition missing_mailer (taxonomy : Taxonomy.t) : list FidesKey :=
  match Taxonomy.system taxonomy with [] => ["mailer"%string] | _ => [] end.

Definition hydrate_mailer (_ : list FidesKey) (taxonomy : Taxonomy.t) : Taxonomy.t :=
  Taxonomy.mk (Taxonomy.policy taxonomy) (Taxonomy.system taxonomy ++ [system_mailer])
    (Taxonomy.other_keys taxonomy).

Definition run_hydrated : outcome Evaluation.t * list event :=
  evaluate [] parse_a_only missing_mailer hydrate_mailer
    "manifests" (Some "policy_a"%string) "nightly" false [].

(** A schema at revision [7c851d8a102a]: [data_uses] without the new
    columns, [evaluations] with its two timestamps. *)
Definition schema_before : Migration.Schema :=
  [("data_uses"%string,
    [Migration.mk_col "fides_key" Migration.Text false None None;
     Migration.mk_col "name" Migration.Text true None None]);
   ("evaluations"%string,
    [Migration.mk_col "fides_key" Migration.Text false None None;
     Migration.created_at; Migration.updated_at])].

(** The same schema at revision [d5807bacca0a]. *)
Definition schema_after : Migration.Schema :=
  [("data_uses"%string,
    [Migration.mk_col "fides_key" Migration.Text false None None;
     Migration.mk_col "name" Migration.Text true None None;
     Migration.legal_basis; Migration.purpose_of_processing; Migration.recipient]);
   ("evaluations"%string,
    [Migration.mk_col "fides_key" Migration.Text false None None])].

(** * Properties *)

(** ** Lemmas on the Python built-ins *)

Lemma py_in_spec (x : string) (xs : list string) : py_in x xs = true <-> In x xs.
Proof.
  unfold py_in; rewrite existsb_exists; split.
  - intros [y [Hy Heq]]; apply String.eqb_eq in Heq; subst; exact Hy.
  - intros Hx; exists x; split; [exact Hx | apply String.eqb_refl].
Qed.

Lemma py_any_map {A} (f : A -> bool) (xs : list A) :
  py_any (map f xs) = true <-> exists x, In x xs /\ f x = true.
Proof.
  unfold py_any; rewrite existsb_exists; split.
  - intros [b [Hb Htrue]]; apply in_map_iff in Hb as [x [Hfx Hx]]; subst.
    exists x; auto.
  - intros [x [Hx Hfx]]; exists (f x); split; [apply in_map; exact Hx | exact Hfx].
Qed.

Lemma py_all_map {A} (f : A -> bool) (xs : list A) :
  py_all (map f xs) = true <-> forall x, In x xs -> f x = true.
Proof.
  unfold py_all; rewrite forallb_forall; split.
  - intros H x Hx; apply H, in_map; exact Hx.
  - intros H b Hb; apply in_map_iff in Hb as [x [Hfx Hx]]; subst; auto.
Qed.

Lemma string_app_assoc (a b c : string) : ((a ++ b) ++ c = a ++ (b ++ c))%string.
Proof. induction a as [|ch a IH]; simpl; [reflexivity | rewrite IH; reflexivity]. Qed.

(** ** The rule scan *)


Lemma evaluate_declaration_eq policy rule system declaration :
  evaluate_declaration policy rule system declaration =
  if all_four_match rule declaration
  then [violation_detail (PrivacyDeclaration.name declaration) (System.fides_key system)
          (Rule.name rule) (Policy.fides_key policy)]
  else [].
Proof.
  unfold evaluate_declaration, all_four_match, py_all; simpl.
  destruct (compare_rule_to_declaration _ (PrivacyDeclaration.data_categories _) _),
           (compare_rule_to_declaration _ [_] _),
           (compare_rule_to_declaration _ (PrivacyDeclaration.data_subjects _) _),
           (String.eqb _ _); reflexivity.
Qed.

(** A loop that extends its accumulator by [h x] at each [x]. *)
Lemma fold_left_extend {A B} (g : list B -> A -> list B) (h : A -> list B)
    (xs : list A) (acc : list B) :
  (forall acc x, g acc x = acc ++ h x) ->
  fold_left g xs acc = acc ++ flat_map h xs.
Proof.
  intros Hg; revert acc; induction xs as [|x xs IH]; intros acc; simpl.
  - rewrite app_nil_r; reflexivity.
  - rewrite IH, Hg, app_assoc; reflexivity.
Qed.

Lemma execute_evaluation_details (taxonomy : Taxonomy.t) :
  Evaluation.details (execute_evaluation taxonomy) =
  flat_map (fun policy =>
    flat_map (fun rule =>
      flat_map (fun system =>
        flat_map (evaluate_declaration policy rule system)
          (System.privacy_declarations system))
        (Taxonomy.system taxonomy))
      (Policy.rules policy))
    (Taxonomy.policy taxonomy).
Proof.
  unfold execute_evaluation; simpl.
  rewrite fold_left_extend with (h := fun policy =>
    flat_map (fun rule =>
      flat_map (fun system =>
        flat_map (evaluate_declaration policy rule system)
          (System.privacy_declarations system))
        (Taxonomy.system taxonomy))
      (Policy.rules policy)); [reflexivity |].
  intros acc policy; apply fold_left_extend.
  intros acc' rule; apply fold_left_extend.
  intros acc'' system; apply fold_left_extend.
  reflexivity.
Qed.

Lemma execute_evaluation_status_details (taxonomy : Taxonomy.t) :
  Evaluation.status (execute_evaluation taxonomy) =
  match Evaluation.details (execute_evaluation taxonomy) with
  | [] => PASS
  | _ :: _ => FAIL
  end.
Proof.
  unfold execute_evaluation; simpl.
  destruct (fold_left _ (Taxonomy.policy taxonomy) []); reflexivity.
Qed.


(** ** Claims on the comparator and the rule scan *)

(** C1: [compare_rule_to_declaration] is, for ANY, "some declaration value
    is a rule value"; for ALL, "every declaration value is a rule value";
    for NONE, "no declaration value is a rule value". It is a total
    function of its arguments. *)
Theorem compare_rule_to_declaration_correct (rule_values declaration_values : list FidesKey) :
  (compare_rule_to_declaration rule_values declaration_values ANY = true <->
     exists v, In v declaration_values /\ In v rule_values) /\
  (compare_rule_to_declaration rule_values declaration_values ALL = true <->
     forall v, In v declaration_values -> In v rule_values) /\
  (compare_rule_to_declaration rule_values declaration_values NONE = true <->
     forall v, In v declaration_values -> ~ In v rule_values).
Proof.
  unfold compare_rule_to_declaration; simpl; split; [| split].
  - rewrite py_any_map; split; intros [v [Hv Hin]]; exists v;
      rewrite py_in_spec in *; auto.
  - rewrite py_all_map; split; intros H v Hv;
      [apply py_in_spec | rewrite py_in_spec]; auto.
  - rewrite negb_true_iff; split.
    + intros Hnone v Hv Hin.
      assert (Hany : py_any (map (fun d => py_in d rule_values) declaration_values) = true)
        by (apply py_any_map; exists v; rewrite py_in_spec; auto).
      congruence.
    + intros Hnone.
      destruct (py_any _) eqn:Hany; [| reflexivity].
      apply py_any_map in Hany as [v [Hv Hin]]; rewrite py_in_spec in Hin.
      exfalso; exact (Hnone v Hv Hin).
Qed.

(** C6: on an empty list of declaration values, [compare] is true for
    NONE and ALL and false for ANY, whatever the rule values. *)
Theorem compare_empty_declaration_values (rule_values : list FidesKey) :
  compare_rule_to_declaration rule_values [] NONE = true /\
  compare_rule_to_declaration rule_values [] ALL = true /\
  compare_rule_to_declaration rule_values [] ANY = false.
Proof. repeat split. Qed.

Lemma flat_map_all_nil {A B} (f : A -> list B) (xs : list A) :
  (forall x, In x xs -> f x = []) -> flat_map f xs = [].
Proof.
  induction xs as [|x xs IH]; intros H; simpl; [reflexivity |].
  rewrite H by (left; reflexivity); apply IH; intros y Hy; apply H; right; exact Hy.
Qed.

(** C2: the detail list of [execute_evaluation] is obtained by scanning
    every (policy, rule, system, declaration) quadruple in loop order and
    recording one detail string exactly for the quadruples whose category
    comparison, use comparison (on the one-element list of the data use),
    subject comparison and qualifier equality all hold; the string names
    the declaration, the system key, the rule and the policy key. *)
Theorem execute_evaluation_records_violations (taxonomy : Taxonomy.t) :
  Evaluation.details (execute_evaluation taxonomy) =
  flat_map (fun policy =>
    flat_map (fun rule =>
      flat_map (fun system =>
        flat_map (fun declaration =>
          if compare_rule_to_declaration (PrivacyRule.values (Rule.data_categories rule))
               (PrivacyDeclaration.data_categories declaration)
               (PrivacyRule.inclusion (Rule.data_categories rule))
             && compare_rule_to_declaration (PrivacyRule.values (Rule.data_uses rule))
                  [PrivacyDeclaration.data_use declaration]
                  (PrivacyRule.inclusion (Rule.data_uses rule))
             && compare_rule_to_declaration (PrivacyRule.values (Rule.data_subjects rule))
                  (PrivacyDeclaration.data_subjects declaration)
                  (PrivacyRule.inclusion (Rule.data_subjects rule))
             && String.eqb (PrivacyDeclaration.data_qualifier declaration)
                  (Rule.data_qualifier rule)
          then [violation_detail (PrivacyDeclaration.name declaration)
                  (System.fides_key system) (Rule.name rule) (Policy.fides_key policy)]
          else [])
          (System.privacy_declarations system))
        (Taxonomy.system taxonomy))
      (Policy.rules policy))
    (Taxonomy.policy taxonomy).
Proof.
  rewrite execute_evaluation_details.
  apply flat_map_ext; intros policy.
  apply flat_map_ext; intros rule.
  apply flat_map_ext; intros system.
  apply flat_map_ext; intros declaration.
  apply evaluate_declaration_eq.
Qed.

(** C3: the status is FAIL when the detail list is non-empty and PASS
    otherwise; one policy with one rule and one system with one
    declaration matching it give FAIL with a single detail naming the
    declaration, system, rule and policy; a taxonomy in which no
    quadruple matches gives PASS with no details. *)
Theorem execute_evaluation_status_correct :
  (forall taxonomy,
     Evaluation.status (execute_evaluation taxonomy) =
     match Evaluation.details (execute_evaluation taxonomy) with
     | [] => PASS
     | _ :: _ => FAIL
     end) /\
  (forall policy_key rule system_key declaration other_keys,
     all_four_match rule declaration = true ->
     let evaluation :=
       execute_evaluation
         (Taxonomy.mk [Policy.mk policy_key [rule]]
                      [System.mk system_key [declaration]] other_keys) in
     Evaluation.status evaluation = FAIL /\
     exists detail,
       Evaluation.details evaluation = [detail] /\
       substring_of (PrivacyDeclaration.name declaration) detail /\
       substring_of system_key detail /\
       substring_of (Rule.name rule) detail /\
       substring_of policy_key detail) /\
  (forall taxonomy,
     (forall policy rule system declaration,
        In policy (Taxonomy.policy taxonomy) -> In rule (Policy.rules policy) ->
        In system (Taxonomy.system taxonomy) ->
        In declaration (System.privacy_declarations system) ->
        all_four_match rule declaration = false) ->
     Evaluation.status (execute_evaluation taxonomy) = PASS /\
     Evaluation.details (execute_evaluation taxonomy) = []).
Proof.
  split; [| split].
  - apply execute_evaluation_status_details.
  - intros policy_key rule system_key declaration other_keys Hmatch evaluation.
    assert (Hd : Evaluation.details evaluation =
                 [violation_detail (PrivacyDeclaration.name declaration) system_key
                    (Rule.name rule) policy_key]).
    { unfold evaluation; rewrite execute_evaluation_details; simpl.
      rewrite evaluate_declaration_eq, Hmatch; reflexivity. }
    split.
    + unfold evaluation; rewrite execute_evaluation_status_details.
      fold evaluation; rewrite Hd; reflexivity.
    + eexists; split; [exact Hd |]; unfold violation_detail.
      repeat split.
      * exists "Declaration ("%string; eexists; reflexivity.
      * exists ("Declaration (" ++ PrivacyDeclaration.name declaration
                ++ ") of System (")%string; eexists.
        repeat rewrite string_app_assoc; reflexivity.
      * exists ("Declaration (" ++ PrivacyDeclaration.name declaration
                ++ ") of System (" ++ system_key ++ ") failed Rule (")%string; eexists.
        repeat rewrite string_app_assoc; reflexivity.
      * exists ("Declaration (" ++ PrivacyDeclaration.name declaration
                ++ ") of System (" ++ system_key ++ ") failed Rule ("
                ++ Rule.name rule ++ ") from Policy (")%string; eexists.
        repeat rewrite string_app_assoc; reflexivity.
  - intros taxonomy Hnone.
    assert (Hd : Evaluation.details (execute_evaluation taxonomy) = []).
    { rewrite execute_evaluation_details.
      apply flat_map_all_nil; intros policy Hp.
      apply flat_map_all_nil; intros rule Hr.
      apply flat_map_all_nil; intros system Hs.
      apply flat_map_all_nil; intros declaration Hdecl.
      rewrite evaluate_declaration_eq, (Hnone policy rule system declaration Hp Hr Hs Hdecl).
      reflexivity. }
    rewrite execute_evaluation_status_details, Hd; split; reflexivity.
Qed.

(** ** The policy resolver *)

Section Resolver.

Variable server_policies : list Policy.t.

Lemma find_by_key_nodup (p : Policy.t) :
  NoDup (map Policy.fides_key server_policies) -> In p server_policies ->
  find (fun q => String.eqb (Policy.fides_key q) (Policy.fides_key p)) server_policies
  = Some p.
Proof.
  induction server_policies as [|q s IH]; intros Hnd Hin; [destruct Hin |].
  simpl in Hnd; inversion Hnd as [|? ? Hq Hnd']; subst.
  simpl; destruct Hin as [-> | Hin].
  - rewrite String.eqb_refl; reflexivity.
  - destruct (String.eqb_spec (Policy.fides_key q) (Policy.fides_key p)) as [Heq |].
    + exfalso; apply Hq; rewrite Heq; apply in_map; exact Hin.
    + apply IH; assumption.
Qed.

Lemma mapM_get_server_resource (l : list Policy.t) (tr : list event) :
  (forall p, In p l ->
     find (fun q => String.eqb (Policy.fides_key q) (Policy.fides_key p)) server_policies
     = Some p) ->
  mapM (get_server_resource server_policies "policy") (map Policy.fides_key l) tr =
  (Ok (map Some l),
   tr ++ map (fun p => RemoteGet "policy" (Policy.fides_key p)) l).
Proof.
  revert tr; induction l as [|p l IH]; intros tr Hfind; simpl.
  - unfold ret; rewrite app_nil_r; reflexivity.
  - unfold bind at 1, get_server_resource, bind at 1, emit, ret.
    rewrite Hfind by (left; reflexivity).
    unfold bind at 1; rewrite IH by (intros q Hq; apply Hfind; right; exact Hq).
    unfold ret; rewrite <- app_assoc; reflexivity.
Qed.

Lemma filter_map_key (g : FidesKey -> bool) (l : list Policy.t) :
  filter g (map Policy.fides_key l) =
  map Policy.fides_key (filter (fun p => g (Policy.fides_key p)) l).
Proof.
  induction l as [|p l IH]; simpl; [reflexivity |].
  destruct (g (Policy.fides_key p)); simpl; rewrite IH; reflexivity.
Qed.

Lemma flat_map_some {A} (l : list A) :
  flat_map (fun o => match o with Some p => [p] | None => [] end) (map Some l) = l.
Proof. induction l as [|x l IH]; simpl; [reflexivity | rewrite IH; reflexivity]. Qed.

Lemma get_all_server_policies_spec (exclude : list FidesKey) (tr : list event) :
  NoDup (map Policy.fides_key server_policies) ->
  get_all_server_policies server_policies (Some exclude) tr =
  (Ok (filter (fun p => negb (py_in (Policy.fides_key p) exclude)) server_policies),
   tr ++ RemoteLs "policy"
      :: map (fun p => RemoteGet "policy" (Policy.fides_key p))
           (filter (fun p => negb (py_in (Policy.fides_key p) exclude)) server_policies)).
Proof.
  intros Hnd.
  unfold get_all_server_policies, api_ls, get_server_resources.
  unfold bind at 1; unfold bind at 1; unfold emit at 1, ret at 1.
  rewrite filter_map_key.
  unfold bind at 1; rewrite mapM_get_server_resource.
  - unfold ret; rewrite flat_map_some, <- app_assoc; reflexivity.
  - intros p Hp; apply filter_In in Hp as [Hp _].
    apply find_by_key_nodup; assumption.
Qed.

End Resolver.

(** C4: with a non-empty target key, the resolver returns the first local
    policy with that key, as a one-element list and without any remote
    call; when no local policy has the key it makes one remote lookup of
    that key and returns the policy found there, or the empty list. *)
Theorem get_evaluation_policies_with_key (server_policies local_policies : list Policy.t)
    (key : FidesKey) (tr : list event) (Hkey : key <> ""%string) :
  (forall p, In p local_policies -> Policy.fides_key p = key ->
     exists q, In q local_policies /\ Policy.fides_key q = key /\
       get_evaluation_policies server_policies local_policies (Some key) tr
       = (Ok [q], tr)) /\
  ((forall p, In p local_policies -> Policy.fides_key p <> key) ->
     get_evaluation_policies server_policies local_policies (Some key) tr =
     (Ok (match find (fun p => String.eqb (Policy.fides_key p) key) server_policies with
          | Some p => [p]
          | None => []
          end),
      tr ++ [RemoteGet "policy" key])).
Proof.
  assert (Htruthy : py_truthy key = true).
  { unfold py_truthy; apply negb_true_iff, String.eqb_neq; exact Hkey. }
  unfold get_evaluation_policies; rewrite Htruthy; split.
  - intros p Hp Hpk.
    destruct (find _ local_policies) as [q|] eqn:Hfind.
    + apply find_some in Hfind as [Hq Hqk]; apply String.eqb_eq in Hqk.
      exists q; repeat split; assumption.
    + exfalso; apply find_none with (x := p) in Hfind; [| exact Hp].
      rewrite Hpk, String.eqb_refl in Hfind; discriminate.
  - intros Hnone.
    destruct (find _ local_policies) as [q|] eqn:Hfind.
    + apply find_some in Hfind as [Hq Hqk]; apply String.eqb_eq in Hqk.
      exfalso; exact (Hnone q Hq Hqk).
    + reflexivity.
Qed.

(** C5: with no target key, and a server whose policy keys are distinct,
    the resolver returns all local policies followed by the server
    policies whose key is not a local key; it lists the server's keys once
    and fetches exactly those policies. *)
Theorem get_evaluation_policies_all (server_policies local_policies : list Policy.t)
    (tr : list event) (Hserver : NoDup (map Policy.fides_key server_policies)) :
  get_evaluation_policies server_policies local_policies None tr =
  (Ok (local_policies ++
       filter (fun p => negb (py_in (Policy.fides_key p)
                                    (map Policy.fides_key local_policies)))
         server_policies),
   tr ++ RemoteLs "policy"
      :: map (fun p => RemoteGet "policy" (Policy.fides_key p))
           (filter (fun p => negb (py_in (Policy.fides_key p)
                                         (map Policy.fides_key local_policies)))
              server_policies)).
Proof.
  unfold get_evaluation_policies, get_all_evaluation_policies.
  destruct local_policies as [|p0 ps].
  - change (get_all_server_policies server_policies None)
      with (get_all_server_policies server_policies (Some [])).
    unfold bind at 1; rewrite get_all_server_policies_spec by exact Hserver.
    reflexivity.
  - unfold bind at 1; rewrite get_all_server_policies_spec by exact Hserver.
    reflexivity.
Qed.

(** C10: the empty string as target key is not truthy: the resolver takes
    the all-policies branch, exactly as with no key. *)
Theorem get_evaluation_policies_empty_key (server_policies local_policies : list Policy.t) :
  get_evaluation_policies server_policies local_policies (Some ""%string) =
  get_all_evaluation_policies server_policies local_policies /\
  get_evaluation_policies server_policies local_policies (Some ""%string) =
  get_evaluation_policies server_policies local_policies None.
Proof. split; reflexivity. Qed.

(** ** Runs of [evaluate] *)


Lemma ret_oblivious {A} P (a : A) : oblivious P (ret a).
Proof. exists (Ok a), []; split; [constructor | intros tr; rewrite app_nil_r; reflexivity]. Qed.

Lemma emit_oblivious (P : event -> Prop) ev : P ev -> oblivious P (emit ev).
Proof. intros H; exists (Ok tt), [ev]; split; [repeat constructor; exact H | reflexivity]. Qed.

Lemma bind_oblivious {A B} P (m : M A) (f : A -> M B) :
  oblivious P m -> (forall a, oblivious P (f a)) -> oblivious P (bind m f).
Proof.
  intros [r1 [l1 [Hl1 Hm]]] Hf; destruct r1 as [a | e].
  - destruct (Hf a) as [r2 [l2 [Hl2 Hfa]]].
    exists r2, (l1 ++ l2); split; [apply Forall_app; split; assumption |].
    intros tr; unfold bind; rewrite Hm, Hfa, app_assoc; reflexivity.
  - exists (Raised e), l1; split; [exact Hl1 |].
    intros tr; unfold bind; rewrite Hm; reflexivity.
Qed.

Lemma mapM_oblivious {A B} P (f : A -> M B) (xs : list A) :
  (forall x, oblivious P (f x)) -> oblivious P (mapM f xs).
Proof.
  intros Hf; induction xs as [|x xs IH]; simpl.
  - apply ret_oblivious.
  - apply bind_oblivious; [apply Hf | intros y].
    apply bind_oblivious; [exact IH | intros ys; apply ret_oblivious].
Qed.

Lemma get_server_resource_oblivious server_policies resource_type key :
  oblivious remote_event (get_server_resource server_policies resource_type key).
Proof.
  apply bind_oblivious; [apply emit_oblivious; exact I | intros _; apply ret_oblivious].
Qed.

Lemma get_all_evaluation_policies_oblivious server_policies local_policies :
  oblivious remote_event (get_all_evaluation_policies server_policies local_policies).
Proof.
  apply bind_oblivious; [| intros; apply ret_oblivious].
  apply bind_oblivious.
  - apply bind_oblivious; [apply emit_oblivious; exact I | intros _; apply ret_oblivious].
  - intros ks; apply bind_oblivious; [| intros; apply ret_oblivious].
    apply mapM_oblivious; intros k; apply get_server_resource_oblivious.
Qed.

Lemma get_evaluation_policies_oblivious server_policies local_policies key :
  oblivious remote_event (get_evaluation_policies server_policies local_policies key).
Proof.
  unfold get_evaluation_policies.
  destruct key as [key |]; [destruct (py_truthy key) |];
    try apply get_all_evaluation_policies_oblivious.
  destruct (find _ _); [apply ret_oblivious |].
  apply bind_oblivious; [apply get_server_resource_oblivious | intros; apply ret_oblivious].
Qed.

Lemma remote_no_executed (l : list event) (e : Evaluation.t) :
  Forall remote_event l -> ~ In (Executed e) l.
Proof.
  intros Hl Hin; rewrite Forall_forall in Hl; exact (Hl _ Hin).
Qed.

Lemma Forall_not_executed (tr : list event) :
  Forall not_executed tr -> forall e, ~ In (Executed e) tr.
Proof. intros H e Hin; rewrite Forall_forall in H; exact (H _ Hin). Qed.

Lemma remote_not_executed (l : list event) :
  Forall remote_event l -> Forall not_executed l.
Proof. apply Forall_impl; intros [] H; simpl in *; tauto. Qed.

(** Closes [Forall not_executed tr] for a trace made of appends of a
    trace of remote events and literal event lists. *)
Ltac no_executed Hl :=
  repeat (apply Forall_app; split);
  first [ exact (remote_not_executed _ Hl) | repeat (constructor; [exact I |]); constructor ].

Lemma evaluate_shape server_policies parse get_referenced_missing_keys
    hydrate_missing_resources manifests_dir fides_key message dry :
  let run := evaluate server_policies parse get_referenced_missing_keys
               hydrate_missing_resources manifests_dir fides_key message dry [] in
  (exists tr, run = (Raised EvaluationError, tr) /\ forall e, ~ In (Executed e) tr) \/
  (exists evaluation pre,
     (forall e, ~ In (Executed e) pre) /\
     ((Evaluation.status evaluation = FAIL /\
       run = (Raised EvaluationError,
              pre ++ [Executed evaluation;
                      PrettyEcho (Evaluation.set_message evaluation message)])) \/
      (Evaluation.status evaluation = PASS /\
       exists post, (forall e, ~ In (Executed e) post) /\
       run = (Ok (Evaluation.set_message evaluation message),
              pre ++ Executed evaluation :: post)))).
Proof.
  intros run.
  destruct (get_evaluation_policies_oblivious server_policies
              (Taxonomy.policy (parse manifests_dir)) fides_key) as [r [l [Hl Hrun]]].
  assert (Hr : run = evaluate server_policies parse get_referenced_missing_keys
               hydrate_missing_resources manifests_dir fides_key message dry []) by reflexivity.
  clearbody run.
  unfold evaluate, bind at 1 in Hr; rewrite Hrun in Hr; simpl app in Hr.
  destruct r as [[|p ps] | e].
  - left. cbn -[execute_evaluation] in Hr.
    eexists; split; [exact Hr |].
    apply Forall_not_executed; no_executed Hl.
  - right. cbn -[execute_evaluation] in Hr.
    destruct (get_referenced_missing_keys _) as [|k ks]; cbn -[execute_evaluation] in Hr;
    match type of Hr with context [Executed (execute_evaluation ?t)] =>
      remember (execute_evaluation t) as ev eqn:Hev end;
    exists ev;
    destruct (Evaluation.status ev) eqn:Hs; cbn in Hr.

    all: first
      [ solve [
          eexists; split;
            [| left; split; [reflexivity |
               rewrite Hr; unfold raise; rewrite <- (app_assoc _ [Executed ev]);
               reflexivity]];
          apply Forall_not_executed; no_executed Hl ]
      | solve [
          destruct dry; cbn in Hr; unfold ret in Hr;
          (eexists; split;
            [| right; split; [reflexivity | eexists; split;
               [| rewrite Hr; repeat rewrite <- (app_assoc (_ ++ [Executed ev]));
                  rewrite <- (app_assoc _ [Executed ev]); reflexivity]]]);
          apply Forall_not_executed; no_executed Hl ] ].
  - destruct e; left; exists l; split; [exact Hr | apply Forall_not_executed; no_executed Hl].
Qed.

Lemma executed_in_middle (pre post : list event) (ev e : Evaluation.t) :
  (forall e', ~ In (Executed e') pre) -> (forall e', ~ In (Executed e') post) ->
  In (Executed e) (pre ++ Executed ev :: post) -> e = ev.
Proof.
  intros Hpre Hpost Hin; apply in_app_or in Hin as [Hin | [Heq | Hin]].
  - exfalso; exact (Hpre _ Hin).
  - injection Heq as ->; reflexivity.
  - exfalso; exact (Hpost _ Hin).
Qed.

(** ** Claims on the [evaluate] workflow *)

(** C7: when the resolver yields no policy, [evaluate] raises
    [EvaluationError] (from [validate_policies_exist]) before
    [execute_evaluation] is called: the trace has no [Executed] event and
    no "Executing evaluations..." line. *)
Theorem evaluate_no_policies_raises server_policies parse get_referenced_missing_keys
    hydrate_missing_resources manifests_dir fides_key message dry
    (Hnone : fst (get_evaluation_policies server_policies
                    (Taxonomy.policy (parse manifests_dir)) fides_key []) = Ok []) :
  exists tr,
    evaluate server_policies parse get_referenced_missing_keys hydrate_missing_resources
      manifests_dir fides_key message dry [] = (Raised EvaluationError, tr) /\
    (forall e, ~ In (Executed e) tr) /\
    ~ In (EchoGreen "Executing evaluations...") tr.
Proof.
  destruct (get_evaluation_policies_oblivious server_policies
              (Taxonomy.policy (parse manifests_dir)) fides_key) as [r [l [Hl Hrun]]].
  rewrite Hrun in Hnone; simpl in Hnone; subst r.
  unfold evaluate, bind at 1; rewrite Hrun; simpl app; cbn -[execute_evaluation].
  eexists; split; [reflexivity | split].
  - apply Forall_not_executed; no_executed Hl.
  - intros Hin; apply in_app_or in Hin as [Hin | [Hin | []]]; [| discriminate].
    rewrite Forall_forall in Hl; exact (Hl _ Hin).
Qed.

(** C8: once [execute_evaluation] has produced an evaluation, a FAIL
    status makes [evaluate] raise [EvaluationError], the last event before
    the raise being the display of the evaluation (with its message); a
    PASS status makes it return normally. *)
Theorem evaluate_fail_raises_after_report server_policies parse get_referenced_missing_keys
    hydrate_missing_resources manifests_dir fides_key message dry r tr
    (Hrun : evaluate server_policies parse get_referenced_missing_keys
              hydrate_missing_resources manifests_dir fides_key message dry [] = (r, tr))
    (evaluation : Evaluation.t) (Hexec : In (Executed evaluation) tr) :
  (Evaluation.status evaluation = FAIL ->
     r = Raised EvaluationError /\
     exists pre, tr = pre ++ [Executed evaluation;
                             PrettyEcho (Evaluation.set_message evaluation message)]) /\
  (Evaluation.status evaluation = PASS -> exists returned, r = Ok returned).
Proof.
  destruct (evaluate_shape server_policies parse get_referenced_missing_keys
              hydrate_missing_resources manifests_dir fides_key message dry)
    as [[tr' [Heq Hno]] | [ev [pre [Hpre [[Hs Heq] | [Hs [post [Hpost Heq]]]]]]]];
    rewrite Heq in Hrun; injection Hrun as <- <-.
  - exfalso; exact (Hno _ Hexec).
  - assert (evaluation = ev) as ->.
    { apply (executed_in_middle pre [PrettyEcho (Evaluation.set_message ev message)]);
        [exact Hpre | intros e' [H | []]; discriminate | exact Hexec]. }
    split; [intros _; split; [reflexivity | exists pre; reflexivity] | congruence].
  - assert (evaluation = ev) as -> by exact (executed_in_middle pre post _ _ Hpre Hpost Hexec).
    split; [congruence | intros _; eexists; reflexivity].
Qed.

(** C9: an evaluation that [evaluate] returns (rather than raising) has
    status PASS and carries the caller's message. *)
Theorem evaluate_returns_pass server_policies parse get_referenced_missing_keys
    hydrate_missing_resources manifests_dir fides_key message dry returned tr
    (Hrun : evaluate server_policies parse get_referenced_missing_keys
              hydrate_missing_resources manifests_dir fides_key message dry []
            = (Ok returned, tr)) :
  Evaluation.status returned = PASS /\ Evaluation.message returned = Some message.
Proof.
  destruct (evaluate_shape server_policies parse get_referenced_missing_keys
              hydrate_missing_resources manifests_dir fides_key message dry)
    as [[tr' [Heq Hno]] | [ev [pre [Hpre [[Hs Heq] | [Hs [post [Hpost Heq]]]]]]]];
    rewrite Heq in Hrun; try discriminate.
  injection Hrun as <- _; split; [exact Hs | reflexivity].
Qed.

(** ** Concrete runs *)

Example execute_evaluation_mailer :
  execute_evaluation (Taxonomy.mk [policy_a] [system_mailer] []) =
  Evaluation.mk FAIL
    ["Declaration (marketing_emails) of System (mailer) failed Rule (no_marketing) from Policy (policy_a)"%string]
    None.
Proof. vm_compute; reflexivity. Qed.

Example compare_truth_table :
  compare_rule_to_declaration ["a"; "b"] ["a"; "c"] ANY = true /\
  compare_rule_to_declaration ["a"; "b"] ["a"; "c"] ALL = false /\
  compare_rule_to_declaration ["a"; "b"] ["a"; "c"] NONE = false /\
  compare_rule_to_declaration ["a"; "b"] ["c"] NONE = true /\
  compare_rule_to_declaration ["a"; "b"] ["b"; "a"] ALL = true.
Proof. vm_compute; repeat split. Qed.

Example run_b_passes :
  run_b = (Ok (Evaluation.mk PASS [] (Some "nightly"%string)),
           [EchoGreen ("Evaluating the following policies:" ++ newline ++ "policy_b");
            PrintLine "----------";
            EchoGreen "Checking for missing resources...";
            EchoGreen "Executing evaluations...";
            Executed (Evaluation.mk PASS [] None);
            EchoGreen "Sending the evaluation results to the server...";
            EchoGreen "Evaluation passed!"]).
Proof. vm_compute; reflexivity. Qed.

(** ** Witnesses *)

Lemma get_evaluation_policies_with_key_witness :
  "policy_a"%string <> ""%string /\
  get_evaluation_policies [policy_b_server; policy_c] [policy_a; policy_b]
    (Some "policy_a"%string) [] = (Ok [policy_a], []).
Proof.
  assert (Hkey : "policy_a"%string <> ""%string) by discriminate.
  split; [exact Hkey |].
  destruct (proj1 (get_evaluation_policies_with_key [policy_b_server; policy_c]
                     [policy_a; policy_b] "policy_a" [] Hkey) policy_a
              (or_introl eq_refl) eq_refl) as [q [Hq [Hk Hrun]]].
  refine (eq_trans Hrun _).
  destruct Hq as [<- | [<- | []]]; [reflexivity | discriminate Hk].
Defined.

Lemma get_evaluation_policies_all_witness :
  NoDup (map Policy.fides_key [policy_b_server; policy_c]) /\
  get_evaluation_policies [policy_b_server; policy_c] [policy_a; policy_b] None [] =
  (Ok [policy_a; policy_b; policy_c],
   [RemoteLs "policy"; RemoteGet "policy" "policy_c"]).
Proof.
  assert (Hnd : NoDup (map Policy.fides_key [policy_b_server; policy_c])).
  { simpl; constructor; [simpl; intros [H | []]; discriminate H |].
    constructor; [intros [] | constructor]. }
  split; [exact Hnd |].
  rewrite (get_evaluation_policies_all [policy_b_server; policy_c] [policy_a; policy_b] [] Hnd).
  vm_compute; reflexivity.
Defined.

Lemma evaluate_no_policies_raises_witness :
  fst (get_evaluation_policies [] (Taxonomy.policy (parse_empty "manifests")) None []) = Ok [] /\
  exists tr,
    evaluate [] parse_empty no_missing_keys no_hydration "manifests" None "nightly" true []
    = (Raised EvaluationError, tr) /\
    (forall e, ~ In (Executed e) tr) /\
    ~ In (EchoGreen "Executing evaluations...") tr.
Proof.
  assert (Hnone : fst (get_evaluation_policies []
                         (Taxonomy.policy (parse_empty "manifests")) None []) = Ok [])
    by (vm_compute; reflexivity).
  split; [exact Hnone |].
  exact (evaluate_no_policies_raises [] parse_empty no_missing_keys no_hydration
           "manifests" None "nightly" true Hnone).
Defined.

Lemma evaluate_fail_raises_after_report_witness :
  let evaluation :=
    execute_evaluation (Taxonomy.mk [policy_a; policy_b; policy_c] [system_mailer] []) in
  In (Executed evaluation) (snd run_ab) /\
  Evaluation.status evaluation = FAIL /\
  (Evaluation.status evaluation = FAIL ->
     fst run_ab = Raised EvaluationError /\
     exists pre, snd run_ab = pre ++ [Executed evaluation;
                                     PrettyEcho (Evaluation.set_message evaluation "nightly")]) /\
  (Evaluation.status evaluation = PASS -> exists returned, fst run_ab = Ok returned).
Proof.
  intros evaluation.
  assert (Hin : In (Executed evaluation) (snd run_ab)).
  { vm_compute; repeat (first [left; reflexivity | right]). }
  split; [exact Hin | split; [vm_compute; reflexivity |]].
  exact (evaluate_fail_raises_after_report [policy_b_server; policy_c] parse_ab
           no_missing_keys no_hydration "manifests" None "nightly" true
           (fst run_ab) (snd run_ab) (surjective_pairing _) evaluation Hin).
Defined.

Lemma evaluate_returns_pass_witness :
  run_b = (Ok (Evaluation.mk PASS [] (Some "nightly"%string)), snd run_b) /\
  Evaluation.status (Evaluation.mk PASS [] (Some "nightly"%string)) = PASS /\
  Evaluation.message (Evaluation.mk PASS [] (Some "nightly"%string)) = Some "nightly"%string.
Proof.
  assert (Hrun : run_b = (Ok (Evaluation.mk PASS [] (Some "nightly"%string)), snd run_b))
    by (vm_compute; reflexivity).
  split; [exact Hrun |].
  exact (evaluate_returns_pass [policy_c] parse_b no_missing_keys no_hydration
           "manifests" (Some "policy_b"%string) "nightly" false _ _ Hrun).
Defined.

(** * Further properties of the evaluation module *)

(** ** The comparator *)

Lemma compare_any_iff rule_values declaration_values :
  compare_rule_to_declaration rule_values declaration_values ANY = true <->
  exists v, In v declaration_values /\ In v rule_values.
Proof.
  unfold compare_rule_to_declaration; simpl; rewrite py_any_map.
  split; intros [v [Hv Hin]]; exists v; rewrite py_in_spec in *; auto.
Qed.

Lemma compare_all_iff rule_values declaration_values :
  compare_rule_to_declaration rule_values declaration_values ALL = true <->
  forall v, In v declaration_values -> In v rule_values.
Proof.
  unfold compare_rule_to_declaration; simpl; rewrite py_all_map.
  split; intros H v Hv; [apply py_in_spec | rewrite py_in_spec]; auto.
Qed.

(** NONE is the negation of ANY, on every input. *)
Lemma compare_none_is_not_any rule_values declaration_values :
  compare_rule_to_declaration rule_values declaration_values NONE =
  negb (compare_rule_to_declaration rule_values declaration_values ANY).
Proof. reflexivity. Qed.

(** The comparison depends only on which keys occur in each list: order
    and repetitions of the declaration values and of the rule values do
    not matter. *)
Theorem compare_depends_on_sets (rule_values rule_values' declaration_values
    declaration_values' : list FidesKey) (inclusion : InclusionEnum)
    (Hrule : forall v, In v rule_values <-> In v rule_values')
    (Hdecl : forall v, In v declaration_values <-> In v declaration_values') :
  compare_rule_to_declaration rule_values declaration_values inclusion =
  compare_rule_to_declaration rule_values' declaration_values' inclusion.
Proof.
  assert (Hany : compare_rule_to_declaration rule_values declaration_values ANY =
                 compare_rule_to_declaration rule_values' declaration_values' ANY).
  { apply eq_true_iff_eq; rewrite !compare_any_iff.
    split; intros [v [Hd Hr]]; exists v; rewrite Hdecl, Hrule in *; auto. }
  destruct inclusion.
  - exact Hany.
  - apply eq_true_iff_eq; rewrite !compare_all_iff.
    split; intros H v Hv; apply Hrule || apply (proj2 (Hrule v)); apply H;
      apply Hdecl || apply (proj2 (Hdecl v)); exact Hv.
  - rewrite !compare_none_is_not_any, Hany; reflexivity.
Qed.

(** With a single declaration value, as for the data use, ANY and ALL both
    test membership of that value and NONE tests its absence. *)
Theorem compare_single_value rule_values (value : FidesKey) :
  compare_rule_to_declaration rule_values [value] ANY = py_in value rule_values /\
  compare_rule_to_declaration rule_values [value] ALL = py_in value rule_values /\
  compare_rule_to_declaration rule_values [value] NONE = negb (py_in value rule_values).
Proof.
  unfold compare_rule_to_declaration; simpl.
  unfold py_any, py_all; simpl; rewrite orb_false_r, andb_true_r; repeat split.
Qed.

(** ** The rule scan *)

(** Evaluating a list of policies that is the concatenation of two lists
    gives the details of the first followed by those of the second, and
    FAIL exactly when one of the two parts fails. *)
Theorem execute_evaluation_policy_app (policies1 policies2 : list Policy.t)
    (systems : list System.t) (other_keys : list FidesKey) :
  Evaluation.details (execute_evaluation (Taxonomy.mk (policies1 ++ policies2) systems other_keys))
  = Evaluation.details (execute_evaluation (Taxonomy.mk policies1 systems other_keys))
    ++ Evaluation.details (execute_evaluation (Taxonomy.mk policies2 systems other_keys)) /\
  (Evaluation.status (execute_evaluation (Taxonomy.mk (policies1 ++ policies2) systems other_keys))
   = FAIL <->
   Evaluation.status (execute_evaluation (Taxonomy.mk policies1 systems other_keys)) = FAIL \/
   Evaluation.status (execute_evaluation (Taxonomy.mk policies2 systems other_keys)) = FAIL).
Proof.
  assert (Happ : Evaluation.details
                   (execute_evaluation (Taxonomy.mk (policies1 ++ policies2) systems other_keys))
                 = Evaluation.details (execute_evaluation (Taxonomy.mk policies1 systems other_keys))
                   ++ Evaluation.details
                        (execute_evaluation (Taxonomy.mk policies2 systems other_keys))).
  { rewrite !execute_evaluation_details; simpl; apply flat_map_app. }
  split; [exact Happ |].
  rewrite !execute_evaluation_status_details, Happ.
  destruct (Evaluation.details (execute_evaluation (Taxonomy.mk policies1 _ _))),
           (Evaluation.details (execute_evaluation (Taxonomy.mk policies2 _ _)));
    simpl; intuition discriminate.
Qed.

Lemma evaluate_declaration_length policy rule system declaration :
  length (evaluate_declaration policy rule system declaration) <= 1.
Proof. rewrite evaluate_declaration_eq; destruct (all_four_match _ _); simpl; lia. Qed.

Lemma flat_map_length_le {A B C} (f : A -> list B) (g : A -> list C) (l : list A) :
  (forall x, length (f x) <= length (g x)) ->
  length (flat_map f l) <= length (flat_map g l).
Proof.
  intros H; induction l as [|x l IH]; simpl; [lia |].
  rewrite !length_app; specialize (H x); lia.
Qed.

(** At most one detail per (rule, declaration) pair: the number of details
    is bounded by the number of rules of all policies times the number of
    declarations of all systems. *)
Theorem execute_evaluation_details_bound (taxonomy : Taxonomy.t) :
  length (Evaluation.details (execute_evaluation taxonomy)) <=
  length (flat_map Policy.rules (Taxonomy.policy taxonomy)) *
  length (flat_map System.privacy_declarations (Taxonomy.system taxonomy)).
Proof.
  rewrite execute_evaluation_details.
  set (D := length (flat_map System.privacy_declarations (Taxonomy.system taxonomy))).
  assert (Hrule : forall policy rule,
    length (flat_map (fun system =>
              flat_map (evaluate_declaration policy rule system)
                (System.privacy_declarations system)) (Taxonomy.system taxonomy)) <= D).
  { intros policy rule; unfold D; apply flat_map_length_le; intros system.
    induction (System.privacy_declarations system) as [|d ds IH]; simpl; [lia |].
    rewrite length_app; pose proof (evaluate_declaration_length policy rule system d); lia. }
  induction (Taxonomy.policy taxonomy) as [|policy ps IH]; simpl; [lia |].
  rewrite !length_app.
  enough (length (flat_map (fun rule =>
            flat_map (fun system =>
              flat_map (evaluate_declaration policy rule system)
                (System.privacy_declarations system)) (Taxonomy.system taxonomy))
            (Policy.rules policy)) <= length (Policy.rules policy) * D) by nia.
  induction (Policy.rules policy) as [|r rs IHr]; simpl; [lia |].
  rewrite length_app; specialize (Hrule policy r); nia.
Qed.

(** ** Policy resolution *)

Lemma mapM_get_server_resource_any (server_policies : list Policy.t)
    (keys : list FidesKey) (tr : list event) :
  mapM (get_server_resource server_policies "policy") keys tr =
  (Ok (map (fun k => find (fun q => String.eqb (Policy.fides_key q) k) server_policies) keys),
   tr ++ map (RemoteGet "policy") keys).
Proof.
  revert tr; induction keys as [|k keys IH]; intros tr; simpl.
  - unfold ret; rewrite app_nil_r; reflexivity.
  - unfold bind at 1, get_server_resource, bind at 1, emit, ret.
    unfold bind at 1; rewrite IH.
    unfold ret; rewrite <- app_assoc; reflexivity.
Qed.

Lemma get_all_server_policies_any (server_policies : list Policy.t)
    (exclude : option (list FidesKey)) (tr : list event) :
  let keys := filter (fun k => negb (py_in k (match exclude with Some e => e | None => [] end)))
                (map Policy.fides_key server_policies) in
  get_all_server_policies server_policies exclude tr =
  (Ok (flat_map (fun o => match o with Some p => [p] | None => [] end)
         (map (fun k => find (fun q => String.eqb (Policy.fides_key q) k) server_policies) keys)),
   tr ++ RemoteLs "policy" :: map (RemoteGet "policy") keys).
Proof.
  intros keys.
  unfold get_all_server_policies, api_ls, get_server_resources.
  unfold bind at 1; unfold bind at 1; unfold emit at 1, ret at 1.
  unfold bind at 1; rewrite mapM_get_server_resource_any.
  unfold ret; rewrite <- app_assoc; reflexivity.
Qed.

Lemma in_flat_map_find (server_policies : list Policy.t) (keys : list FidesKey)
    (p : Policy.t) :
  In p (flat_map (fun o => match o with Some p => [p] | None => [] end)
          (map (fun k => find (fun q => String.eqb (Policy.fides_key q) k) server_policies)
             keys)) ->
  In p server_policies /\ In (Policy.fides_key p) keys.
Proof.
  intros Hin; apply in_flat_map in Hin as [o [Ho Hp]].
  apply in_map_iff in Ho as [k [Hk Hkin]].
  destruct o as [q |]; [| destruct Hp].
  destruct Hp as [<- | []].
  apply find_some in Hk as [Hq Heq]; apply String.eqb_eq in Heq.
  rewrite Heq; split; assumption.
Qed.

(** Listing every server policy only ever returns policies stored on the
    server whose key is not excluded (no assumption on duplicate keys);
    its remote traffic is one listing followed by one lookup per kept
    key. *)
Theorem get_all_server_policies_sound (server_policies : list Policy.t)
    (exclude : option (list FidesKey)) (tr : list event) :
  exists ps,
    get_all_server_policies server_policies exclude tr =
    (Ok ps, tr ++ RemoteLs "policy"
               :: map (RemoteGet "policy")
                    (filter (fun k => negb (py_in k (match exclude with
                                                     | Some e => e | None => [] end)))
                       (map Policy.fides_key server_policies))) /\
    forall p, In p ps ->
      In p server_policies /\
      py_in (Policy.fides_key p) (match exclude with Some e => e | None => [] end) = false.
Proof.
  eexists; split; [apply get_all_server_policies_any |].
  intros p Hp; apply in_flat_map_find in Hp as [Hs Hk].
  apply filter_In in Hk as [_ Hk]; apply negb_true_iff in Hk; split; assumption.
Qed.

(** With a non-empty key the resolver returns at most one policy, which
    carries that key and comes from the local policies or the server, and
    makes at most one remote call, a lookup of that key. *)
Theorem get_evaluation_policies_key_at_most_one (server_policies local_policies : list Policy.t)
    (key : FidesKey) (tr : list event) (Hkey : key <> ""%string) :
  exists ps,
    fst (get_evaluation_policies server_policies local_policies (Some key) tr) = Ok ps /\
    length ps <= 1 /\
    (forall p, In p ps -> Policy.fides_key p = key /\
                          (In p local_policies \/ In p server_policies)) /\
    (snd (get_evaluation_policies server_policies local_policies (Some key) tr) = tr \/
     snd (get_evaluation_policies server_policies local_policies (Some key) tr)
     = tr ++ [RemoteGet "policy" key]).
Proof.
  unfold get_evaluation_policies.
  destruct (py_truthy key) eqn:Ht.
  2: { destruct key; [contradiction | discriminate]. }
  destruct (find (fun p => String.eqb (Policy.fides_key p) key) local_policies)
    as [q |] eqn:Hl.
  - exists [q]; cbn; split; [reflexivity | split; [auto | split; [| left; reflexivity]]].
    intros r [<- | []]; apply find_some in Hl as [Hq Heq].
    split; [apply String.eqb_eq; exact Heq | left; exact Hq].
  - unfold bind, get_server_resource, bind, emit, ret; cbn.
    destruct (find (fun p => String.eqb (Policy.fides_key p) key) server_policies)
      as [q |] eqn:Hs.
    + exists [q]; cbn; split; [reflexivity | split; [auto | split; [| right; reflexivity]]].
      intros r [<- | []]; apply find_some in Hs as [Hq Heq].
      split; [apply String.eqb_eq; exact Heq | right; exact Hq].
    + exists []; cbn; split; [reflexivity | split; [auto | split; [intros r [] | right; reflexivity]]].
Qed.

(** Without a (truthy) key the resolver keeps every local policy, in
    order, and appends only server policies whose key is not a local key
    (no assumption on duplicate keys). *)
Theorem get_evaluation_policies_all_extends_local (server_policies local_policies : list Policy.t)
    (key : option FidesKey) (tr : list event)
    (Hkey : key = None \/ key = Some ""%string) :
  exists added,
    fst (get_evaluation_policies server_policies local_policies key tr)
    = Ok (local_policies ++ added) /\
    forall p, In p added ->
      In p server_policies /\ ~ In (Policy.fides_key p) (map Policy.fides_key local_policies).
Proof.
  assert (Hall : get_evaluation_policies server_policies local_policies key tr
                 = get_all_evaluation_policies server_policies local_policies tr)
    by (destruct Hkey as [-> | ->]; reflexivity).
  rewrite Hall; unfold get_all_evaluation_policies, bind at 1.
  rewrite get_all_server_policies_any; cbn.
  eexists; split; [reflexivity |].
  intros p Hp; apply in_flat_map_find in Hp as [Hs Hk].
  apply filter_In in Hk as [_ Hk]; apply negb_true_iff in Hk.
  split; [exact Hs |].
  destruct local_policies as [| l ls]; [intros [] |].
  rewrite <- py_in_spec, Hk; discriminate.
Qed.

(** ** The [evaluate] workflow *)

Lemma bind_apply {A B} (m : M A) (f : A -> M B) (tr : list event) :
  bind m f tr = match m tr with
                | (Ok a, tr') => f a tr'
                | (Raised e, tr') => (Raised e, tr')
                end.
Proof. reflexivity. Qed.

Lemma in_after_remote (l m : list event) (x : event) :
  Forall remote_event l -> ~ remote_event x -> In x (l ++ m) -> In x m.
Proof.
  intros Hl Hx Hin; apply in_app_or in Hin as [Hin | Hin]; [| exact Hin].
  rewrite Forall_forall in Hl; exfalso; exact (Hx (Hl _ Hin)).
Qed.


(** The evaluation [evaluate] executes is the one of the parsed taxonomy
    with its policies replaced by the resolved (non-empty) list, hydrated
    exactly when the referenced-but-missing keys are not empty; the trace
    holds a [Hydrate] event for those keys and for nothing else. *)
Theorem evaluate_executes_resolved_taxonomy server_policies parse get_referenced_missing_keys
    hydrate_missing_resources manifests_dir fides_key message dry r tr
    (Hrun : evaluate server_policies parse get_referenced_missing_keys
              hydrate_missing_resources manifests_dir fides_key message dry [] = (r, tr))
    (evaluation : Evaluation.t) (Hexec : In (Executed evaluation) tr) :
  exists policies,
    fst (get_evaluation_policies server_policies (Taxonomy.policy (parse manifests_dir))
           fides_key []) = Ok policies /\
    policies <> [] /\
    let taxonomy := Taxonomy.set_policy (parse manifests_dir) policies in
    evaluation =
      execute_evaluation (match get_referenced_missing_keys taxonomy with
                          | [] => taxonomy
                          | keys => hydrate_missing_resources keys taxonomy
                          end) /\
    (forall keys, In (Hydrate keys) tr <->
                  keys = get_referenced_missing_keys taxonomy /\ keys <> []).
Proof.
  destruct (get_evaluation_policies_oblivious server_policies
              (Taxonomy.policy (parse manifests_dir)) fides_key) as [r0 [l [Hl Hres]]].
  unfold evaluate in Hrun; cbv beta zeta in Hrun.
  rewrite bind_apply, Hres in Hrun; simpl app in Hrun.
  destruct r0 as [[|p ps] | e]; cbn -[execute_evaluation] in Hrun.
  - injection Hrun as <- <-; exfalso.
    eapply in_after_remote in Hexec; [| exact Hl | intros []].
    destruct Hexec as [H | []]; discriminate.
  - exists (p :: ps); split; [rewrite Hres; reflexivity | split; [discriminate |]].
    cbv zeta.
    destruct (get_referenced_missing_keys _) as [|k ks] eqn:Hk;
      cbn -[execute_evaluation] in Hrun;
      match type of Hrun with context [Executed (execute_evaluation ?t)] =>
        remember (execute_evaluation t) as ev eqn:Hev end;
      destruct (Evaluation.status ev) eqn:Hs, dry; cbn in Hrun;
      injection Hrun as <- <-; repeat rewrite <- app_assoc in *;
      (split;
       [ eapply in_after_remote in Hexec; [| exact Hl | intros []]; simpl in Hexec;
         repeat (destruct Hexec as [Hexec | Hexec]; [try discriminate |]);
         try (injection Hexec as <-; reflexivity); contradiction
       | intros keys; split;
         [ intros Hin; eapply in_after_remote in Hin; [| exact Hl | intros []]; simpl in Hin;
           repeat (destruct Hin as [Hin | Hin]; [try discriminate |]);
           try (injection Hin as <-; split; [reflexivity | discriminate]); contradiction
         | intros [-> Hne]; try (exfalso; exact (Hne eq_refl));
           apply in_or_app; right; simpl; tauto ] ]).
  - injection Hrun as <- <-; exfalso.
    exact (remote_no_executed _ _ Hl Hexec).
Qed.

(** * Properties of the migration [d5807bacca0a] *)

Module MigrationFacts.
Import Migration.

Lemma lookup_update (t u : string) (f : list Column -> list Column) (s : Schema) :
  lookup t (update u f s) =
  if String.eqb t u then option_map f (lookup t s) else lookup t s.
Proof.
  induction s as [|[n cs] s IH]; simpl.
  - destruct (String.eqb t u); reflexivity.
  - destruct (String.eqb_spec n u) as [-> | Hnu]; simpl.
    + destruct (String.eqb_spec u t) as [-> | Hut]; [rewrite String.eqb_refl; reflexivity |].
      rewrite IH; destruct (String.eqb_spec t u); [congruence | reflexivity].
    + destruct (String.eqb_spec n t) as [-> | Hnt].
      * destruct (String.eqb_spec t u); [congruence | reflexivity].
      * exact IH.
Qed.

Lemma map_fst_update (u : string) (f : list Column -> list Column) (s : Schema) :
  map fst (update u f s) = map fst s.
Proof.
  induction s as [|[n cs] s IH]; simpl; [reflexivity |].
  destruct (String.eqb n u); simpl; rewrite IH; reflexivity.
Qed.

Lemma add_column_some (t : string) (c : Column) (s s' : Schema) :
  add_column t c s = Some s' ->
  exists cs, lookup t s = Some cs /\ has_column (name c) cs = false /\
             s' = update t (fun cs => cs ++ [c]) s.
Proof.
  unfold add_column; destruct (lookup t s) as [cs |]; [| discriminate].
  destruct (has_column (name c) cs) eqn:Hh; [discriminate |].
  intros H; injection H as <-; exists cs; auto.
Qed.

Lemma drop_column_some (t n : string) (s s' : Schema) :
  drop_column t n s = Some s' ->
  exists cs, lookup t s = Some cs /\ has_column n cs = true /\
             s' = update t (remove_column n) s.
Proof.
  unfold drop_column; destruct (lookup t s) as [cs |]; [| discriminate].
  destruct (has_column n cs) eqn:Hh; [| discriminate].
  intros H; injection H as <-; exists cs; auto.
Qed.

Lemma add_column_ok (t : string) (c : Column) (s : Schema) (cs : list Column) :
  lookup t s = Some cs -> has_column (name c) cs = false ->
  add_column t c s = Some (update t (fun cs => cs ++ [c]) s).
Proof. intros Hl Hh; unfold add_column; rewrite Hl, Hh; reflexivity. Qed.

Lemma drop_column_ok (t n : string) (s : Schema) (cs : list Column) :
  lookup t s = Some cs -> has_column n cs = true ->
  drop_column t n s = Some (update t (remove_column n) s).
Proof. intros Hl Hh; unfold drop_column; rewrite Hl, Hh; reflexivity. Qed.

Lemma has_column_app (n : string) (cs cs' : list Column) :
  has_column n (cs ++ cs') = has_column n cs || has_column n cs'.
Proof. apply existsb_app. Qed.

Lemma has_column_In (c : Column) (cs : list Column) :
  In c cs -> has_column (name c) cs = true.
Proof.
  intros Hin; apply existsb_exists; exists c; split; [exact Hin | apply String.eqb_refl].
Qed.

Lemma remove_column_app (n : string) (cs cs' : list Column) :
  remove_column n (cs ++ cs') = remove_column n cs ++ remove_column n cs'.
Proof. apply filter_app. Qed.

Lemma remove_column_absent (n : string) (cs : list Column) :
  has_column n cs = false -> remove_column n cs = cs.
Proof.
  induction cs as [|c cs IH]; simpl; [reflexivity |].
  intros H; apply orb_false_iff in H as [Hc Hcs].
  rewrite Hc, IH by exact Hcs; reflexivity.
Qed.

Lemma map_name_remove_column (n : string) (cs : list Column) :
  map name (remove_column n cs) = filter (fun m => negb (String.eqb m n)) (map name cs).
Proof.
  induction cs as [|c cs IH]; simpl; [reflexivity |].
  destruct (String.eqb (name c) n); simpl; rewrite IH; reflexivity.
Qed.

Lemma remove_column_In (c : Column) (n : string) (cs : list Column) :
  In c (remove_column n cs) <-> In c cs /\ name c <> n.
Proof.
  unfold remove_column; rewrite filter_In, negb_true_iff.
  destruct (String.eqb_spec (name c) n); intuition congruence.
Qed.

(** With distinct column names, a table is a permutation of any of its
    columns followed by the others. *)
Lemma perm_remove_column (c : Column) (cs : list Column) :
  NoDup (map name cs) -> In c cs -> Permutation cs (c :: remove_column (name c) cs).
Proof.
  induction cs as [|c' cs IH]; intros Hnd Hin; [destruct Hin |].
  simpl in Hnd; inversion Hnd as [|? ? Hc' Hnd']; subst.
  simpl; destruct Hin as [-> | Hin].
  - rewrite String.eqb_refl; simpl.
    rewrite remove_column_absent; [reflexivity |].
    apply not_true_is_false; intros Hh; apply Hc'.
    apply existsb_exists in Hh as [d [Hd Heq]]; apply String.eqb_eq in Heq.
    rewrite <- Heq; apply in_map; exact Hd.
  - destruct (String.eqb_spec (name c') (name c)) as [Heq | Hne].
    + exfalso; apply Hc'; rewrite Heq; apply in_map; exact Hin.
    + simpl; rewrite (IH Hnd' Hin) at 1; apply perm_swap.
Qed.


(** [upgrade] followed by [downgrade] gives the schema back: the same
    tables in the same order, each with the same columns up to their order
    (the two timestamps come back at the end of [evaluations]). It needs
    [data_uses] without the three new columns and [evaluations] with
    distinct column names, holding the two timestamp columns as
    [downgrade] re-creates them. *)
Theorem upgrade_downgrade_roundtrip (s : Schema) (data_uses evaluations : list Column)
    (Hdu : lookup "data_uses" s = Some data_uses)
    (Hnew : has_column "legal_basis" data_uses = false /\
            has_column "purpose_of_processing" data_uses = false /\
            has_column "recipient" data_uses = false)
    (Hev : lookup "evaluations" s = Some evaluations)
    (Hnd : NoDup (map name evaluations))
    (Hts : In created_at evaluations /\ In updated_at evaluations) :
  exists s1 s2,
    upgrade s = Some s1 /\ downgrade s1 = Some s2 /\
    map fst s2 = map fst s /\
    forall table, match lookup table s, lookup table s2 with
                  | Some cs, Some cs' => Permutation cs cs'
                  | None, None => True
                  | _, _ => False
                  end.
Proof.
  destruct Hnew as [H1 [H2 H3]]; destruct Hts as [Hcr Hup].
  set (ev1 := remove_column "updated_at" evaluations).
  set (ev2 := remove_column "created_at" ev1).
  assert (Hup' : has_column "updated_at" evaluations = true)
    by exact (has_column_In updated_at _ Hup).
  assert (Hcr1 : In created_at ev1) by (apply remove_column_In; split; [exact Hcr | discriminate]).
  assert (Hcr' : has_column "created_at" ev1 = true) by exact (has_column_In created_at _ Hcr1).
  assert (Hnd1 : NoDup (map name ev1))
    by (unfold ev1; rewrite map_name_remove_column; apply NoDup_filter; exact Hnd).
  assert (Hev2 : has_column "created_at" ev2 = false).
  { apply not_true_is_false; intros Hh.
    apply existsb_exists in Hh as [d [Hd Heq]]; apply String.eqb_eq in Heq.
    apply remove_column_In in Hd as [_ Hd]; exact (Hd Heq). }
  assert (Hev2' : has_column "updated_at" (ev2 ++ [created_at]) = false).
  { rewrite has_column_app; apply orb_false_iff; split; [| reflexivity].
    apply not_true_is_false; intros Hh.
    apply existsb_exists in Hh as [d [Hd Heq]]; apply String.eqb_eq in Heq.
    apply remove_column_In in Hd as [Hd _]; apply remove_column_In in Hd as [_ Hd].
    exact (Hd Heq). }
  eexists; eexists; split; [| split; [| split]].
  - unfold upgrade.
    rewrite (add_column_ok _ legal_basis _ _ Hdu H1); cbn [obind].
    rewrite (add_column_ok "data_uses" purpose_of_processing _ (data_uses ++ [legal_basis]))
      by (rewrite ?lookup_update, ?Hdu; try reflexivity; cbn [name purpose_of_processing]; rewrite has_column_app, H2; reflexivity).
    cbn [obind].
    rewrite (add_column_ok "data_uses" recipient _ ((data_uses ++ [legal_basis]) ++ [purpose_of_processing]))
      by (rewrite ?lookup_update, ?Hdu; try reflexivity; cbn [name recipient]; rewrite !has_column_app, H3; reflexivity).
    cbn [obind].
    rewrite (drop_column_ok "evaluations" "updated_at" _ evaluations)
      by (rewrite ?lookup_update, ?Hev; try reflexivity; exact Hup').
    cbn [obind].
    rewrite (drop_column_ok "evaluations" "created_at" _ ev1)
      by (rewrite ?lookup_update, ?Hev; try reflexivity; exact Hcr').
    reflexivity.
  - unfold downgrade.
    rewrite (add_column_ok "evaluations" created_at _ ev2)
      by (rewrite ?lookup_update, ?Hev; try reflexivity; exact Hev2).
    cbn [obind].
    rewrite (add_column_ok "evaluations" updated_at _ (ev2 ++ [created_at]))
      by (rewrite ?lookup_update, ?Hev; try reflexivity; exact Hev2').
    cbn [obind].
    rewrite (drop_column_ok "data_uses" "recipient" _ (((data_uses ++ [legal_basis]) ++ [purpose_of_processing]) ++ [recipient]))
      by (rewrite ?lookup_update, ?Hdu; try reflexivity; rewrite !has_column_app; apply orb_true_r).
    cbn [obind].
    rewrite (drop_column_ok "data_uses" "purpose_of_processing" _ (remove_column "recipient" (((data_uses ++ [legal_basis]) ++ [purpose_of_processing]) ++ [recipient])))
      by (rewrite ?lookup_update, ?Hdu; try reflexivity; rewrite !remove_column_app, !has_column_app; reflexivity || (simpl; rewrite orb_true_r; reflexivity)).
    cbn [obind].
    rewrite (drop_column_ok "data_uses" "legal_basis" _ (remove_column "purpose_of_processing" (remove_column "recipient" (((data_uses ++ [legal_basis]) ++ [purpose_of_processing]) ++ [recipient]))))
      by (rewrite ?lookup_update, ?Hdu; try reflexivity; rewrite !remove_column_app, !has_column_app; simpl; rewrite ?orb_true_r; reflexivity).
    reflexivity.
  - rewrite !map_fst_update; reflexivity.
  - intros table; rewrite !lookup_update.
    destruct (String.eqb_spec table "data_uses") as [-> | Hd];
    [| destruct (String.eqb_spec table "evaluations") as [-> | He]]; simpl.
    + rewrite Hdu; simpl.
      rewrite !remove_column_app, !(remove_column_absent "recipient" data_uses H3),
        !(remove_column_absent "purpose_of_processing" data_uses H2),
        !(remove_column_absent "legal_basis" data_uses H1).
      simpl; rewrite !app_nil_r; reflexivity.
    + rewrite Hev; simpl; fold ev1 ev2.
      rewrite <- app_assoc; simpl.
      transitivity (updated_at :: ev1); [exact (perm_remove_column updated_at _ Hnd Hup) |].
      transitivity (updated_at :: created_at :: ev2);
        [apply perm_skip; exact (perm_remove_column created_at _ Hnd1 Hcr1) |].
      rewrite perm_swap; symmetry.
      exact (Permutation_app_comm ev2 [created_at; updated_at]).
    + destruct (lookup table s); [reflexivity | exact I].
Qed.

Lemma has_column_remove_other (n m : string) (cs : list Column) :
  n <> m -> has_column n (remove_column m cs) = has_column n cs.
Proof.
  intros Hnm; induction cs as [|c cs IH]; simpl; [reflexivity |].
  destruct (String.eqb_spec (name c) m) as [-> | Hcm]; simpl.
  - rewrite IH; destruct (String.eqb_spec m n); [congruence | reflexivity].
  - rewrite IH; reflexivity.
Qed.

Lemma upgrade_some (s s1 : Schema) :
  upgrade s = Some s1 ->
  exists data_uses evaluations,
    lookup "data_uses" s = Some data_uses /\
    has_column "legal_basis" data_uses = false /\
    has_column "purpose_of_processing" data_uses = false /\
    has_column "recipient" data_uses = false /\
    lookup "evaluations" s = Some evaluations /\
    has_column "updated_at" evaluations = true /\
    has_column "created_at" evaluations = true /\
    s1 = update "evaluations" (remove_column "created_at")
           (update "evaluations" (remove_column "updated_at")
              (update "data_uses" (fun cs => cs ++ [recipient])
                 (update "data_uses" (fun cs => cs ++ [purpose_of_processing])
                    (update "data_uses" (fun cs => cs ++ [legal_basis]) s)))).
Proof.
  unfold upgrade; intros H.
  destruct (add_column "data_uses" legal_basis s) as [a |] eqn:Ha; cbn [obind] in H;
    [| discriminate].
  destruct (add_column "data_uses" purpose_of_processing a) as [b |] eqn:Hb; cbn [obind] in H;
    [| discriminate].
  destruct (add_column "data_uses" recipient b) as [c |] eqn:Hc; cbn [obind] in H;
    [| discriminate].
  destruct (drop_column "evaluations" "updated_at" c) as [d |] eqn:Hd; cbn [obind] in H;
    [| discriminate].
  apply add_column_some in Ha as [du [Hdu [H1 ->]]].
  apply add_column_some in Hb as [du2 [Hdu2 [H2 ->]]].
  apply add_column_some in Hc as [du3 [Hdu3 [H3 ->]]].
  apply drop_column_some in Hd as [ev [Hev [H4 ->]]].
  apply drop_column_some in H as [ev2 [Hev2 [H5 ->]]].
  rewrite lookup_update, Hdu in Hdu2; injection Hdu2 as <-.
  rewrite lookup_update, lookup_update, Hdu in Hdu3; injection Hdu3 as <-.
  rewrite !lookup_update in Hev; cbn [String.eqb Ascii.eqb Bool.eqb] in Hev.
  rewrite lookup_update, !lookup_update, Hev in Hev2; cbn [String.eqb Ascii.eqb Bool.eqb option_map] in Hev2.
  injection Hev2 as <-.
  rewrite has_column_remove_other in H5 by discriminate.
  rewrite !has_column_app in H2; rewrite !has_column_app in H3; cbn in H2, H3.
  rewrite orb_false_r in H2; rewrite !orb_false_r in H3.
  exists du, ev; repeat split; assumption.
Qed.

(** [upgrade] succeeds exactly on a schema where [data_uses] exists with
    none of the three new columns and [evaluations] exists with both
    timestamp columns; on success every other table is left as it was,
    [data_uses] gains the three columns at its end, in source order, and
    [evaluations] loses the two timestamps, the table order being kept. *)
Theorem upgrade_effect (s : Schema) :
  ((exists s1, upgrade s = Some s1) <->
   exists data_uses evaluations,
     lookup "data_uses" s = Some data_uses /\
     has_column "legal_basis" data_uses = false /\
     has_column "purpose_of_processing" data_uses = false /\
     has_column "recipient" data_uses = false /\
     lookup "evaluations" s = Some evaluations /\
     has_column "updated_at" evaluations = true /\
     has_column "created_at" evaluations = true) /\
  forall s1, upgrade s = Some s1 ->
    map fst s1 = map fst s /\
    forall table,
      lookup table s1 =
      if String.eqb table "data_uses" then
        option_map (fun cs => cs ++ [legal_basis; purpose_of_processing; recipient])
          (lookup table s)
      else if String.eqb table "evaluations" then
        option_map (fun cs => remove_column "created_at" (remove_column "updated_at" cs))
          (lookup table s)
      else lookup table s.
Proof.
  split; [split |].
  - intros [s1 H]; apply upgrade_some in H as (du & ev & Hdu & H1 & H2 & H3 & Hev & H4 & H5 & _).
    exists du, ev; repeat split; assumption.
  - intros (du & ev & Hdu & H1 & H2 & H3 & Hev & H4 & H5); eexists; unfold upgrade.
    rewrite (add_column_ok "data_uses" legal_basis _ _ Hdu H1); cbn [obind].
    rewrite (add_column_ok "data_uses" purpose_of_processing _ (du ++ [legal_basis]))
      by (rewrite ?lookup_update, ?Hdu; try reflexivity; cbn [name purpose_of_processing];
          rewrite has_column_app, H2; reflexivity).
    cbn [obind].
    rewrite (add_column_ok "data_uses" recipient _ ((du ++ [legal_basis]) ++ [purpose_of_processing]))
      by (rewrite ?lookup_update, ?Hdu; try reflexivity; cbn [name recipient];
          rewrite !has_column_app, H3; reflexivity).
    cbn [obind].
    rewrite (drop_column_ok "evaluations" "updated_at" _ ev)
      by (rewrite ?lookup_update, ?Hev; try reflexivity; exact H4).
    cbn [obind].
    rewrite (drop_column_ok "evaluations" "created_at" _ (remove_column "updated_at" ev))
      by (rewrite ?lookup_update, ?Hev; try reflexivity;
          rewrite has_column_remove_other by discriminate; exact H5).
    reflexivity.
  - intros s1 H; apply upgrade_some in H as (du & ev & Hdu & _ & _ & _ & Hev & _ & _ & ->).
    split; [rewrite !map_fst_update; reflexivity |].
    intros table; rewrite !lookup_update.
    destruct (String.eqb_spec table "data_uses") as [-> | Hd];
    [| destruct (String.eqb_spec table "evaluations") as [-> | He]]; cbn.
    + rewrite Hdu; cbn; rewrite <- !app_assoc; reflexivity.
    + rewrite Hev; reflexivity.
    + reflexivity.
Qed.

(** [upgrade] cannot be applied twice: on the schema it produces, adding
    [legal_basis] to [data_uses] again fails. *)
Theorem upgrade_twice_fails (s s1 : Schema) (Hup : upgrade s = Some s1) :
  upgrade s1 = None.
Proof.
  apply upgrade_some in Hup as (du & ev & Hdu & _ & _ & _ & _ & _ & _ & ->).
  unfold upgrade at 1, add_column at 1.
  rewrite !lookup_update; cbn [String.eqb Ascii.eqb Bool.eqb]; rewrite Hdu; cbn [option_map].
  rewrite !has_column_app; cbn; rewrite orb_true_r; reflexivity.
Qed.

Lemma has_column_remove_same (n : string) (cs : list Column) :
  has_column n (remove_column n cs) = false.
Proof.
  apply not_true_is_false; intros Hh.
  apply existsb_exists in Hh as [d [Hd Heq]]; apply String.eqb_eq in Heq.
  apply remove_column_In in Hd as [_ Hd]; exact (Hd Heq).
Qed.

Lemma NoDup_remove_column (n : string) (cs : list Column) :
  NoDup (map name cs) -> NoDup (map name (remove_column n cs)).
Proof. intros H; rewrite map_name_remove_column; apply NoDup_filter; exact H. Qed.

(** [downgrade] followed by [upgrade] gives the schema back, each table's
    columns up to order (the three [data_uses] columns come back at its
    end). It needs [evaluations] without the two timestamp columns and
    [data_uses] with distinct column names, holding the three columns as
    [upgrade] creates them. *)
Theorem downgrade_upgrade_roundtrip (s : Schema) (data_uses evaluations : list Column)
    (Hdu : lookup "data_uses" s = Some data_uses)
    (Hnd : NoDup (map name data_uses))
    (Hcols : In legal_basis data_uses /\ In purpose_of_processing data_uses /\
             In recipient data_uses)
    (Hev : lookup "evaluations" s = Some evaluations)
    (Hts : has_column "created_at" evaluations = false /\
           has_column "updated_at" evaluations = false) :
  exists s1 s2,
    downgrade s = Some s1 /\ upgrade s1 = Some s2 /\
    map fst s2 = map fst s /\
    forall table, match lookup table s, lookup table s2 with
                  | Some cs, Some cs' => Permutation cs cs'
                  | None, None => True
                  | _, _ => False
                  end.
Proof.
  destruct Hcols as [Hlb [Hpop Hrec]]; destruct Hts as [Hcr Hup].
  set (du1 := remove_column "recipient" data_uses).
  set (du2 := remove_column "purpose_of_processing" du1).
  set (du3 := remove_column "legal_basis" du2).
  assert (Hpop1 : In purpose_of_processing du1)
    by (apply remove_column_In; split; [exact Hpop | discriminate]).
  assert (Hlb2 : In legal_basis du2).
  { apply remove_column_In; split; [| discriminate].
    apply remove_column_In; split; [exact Hlb | discriminate]. }
  assert (Hnd1 : NoDup (map name du1)) by (apply NoDup_remove_column; exact Hnd).
  assert (Hnd2 : NoDup (map name du2)) by (apply NoDup_remove_column; exact Hnd1).
  assert (Hdu3lb : has_column "legal_basis" du3 = false) by apply has_column_remove_same.
  assert (Hdu3pop : has_column "purpose_of_processing" du3 = false).
  { unfold du3; rewrite has_column_remove_other by discriminate; apply has_column_remove_same. }
  assert (Hdu3rec : has_column "recipient" du3 = false).
  { unfold du3, du2; rewrite !has_column_remove_other by discriminate;
    apply has_column_remove_same. }
  eexists; eexists; split; [| split; [| split]].
  - unfold downgrade.
    rewrite (add_column_ok "evaluations" created_at _ evaluations Hev Hcr); cbn [obind].
    rewrite (add_column_ok "evaluations" updated_at _ (evaluations ++ [created_at]))
      by (rewrite ?lookup_update, ?Hev; try reflexivity; cbn [name updated_at];
          rewrite has_column_app, Hup; reflexivity).
    cbn [obind].
    rewrite (drop_column_ok "data_uses" "recipient" _ data_uses)
      by (rewrite ?lookup_update, ?Hdu; try reflexivity; exact (has_column_In recipient _ Hrec)).
    cbn [obind].
    rewrite (drop_column_ok "data_uses" "purpose_of_processing" _ du1)
      by (rewrite ?lookup_update, ?Hdu; try reflexivity;
          exact (has_column_In purpose_of_processing _ Hpop1)).
    cbn [obind].
    rewrite (drop_column_ok "data_uses" "legal_basis" _ du2)
      by (rewrite ?lookup_update, ?Hdu; try reflexivity; exact (has_column_In legal_basis _ Hlb2)).
    reflexivity.
  - unfold upgrade.
    rewrite (add_column_ok "data_uses" legal_basis _ du3)
      by (rewrite ?lookup_update, ?Hdu; try reflexivity; exact Hdu3lb).
    cbn [obind].
    rewrite (add_column_ok "data_uses" purpose_of_processing _ (du3 ++ [legal_basis]))
      by (rewrite ?lookup_update, ?Hdu; try reflexivity; cbn [name purpose_of_processing];
          rewrite has_column_app, Hdu3pop; reflexivity).
    cbn [obind].
    rewrite (add_column_ok "data_uses" recipient _ ((du3 ++ [legal_basis]) ++ [purpose_of_processing]))
      by (rewrite ?lookup_update, ?Hdu; try reflexivity; cbn [name recipient];
          rewrite !has_column_app, Hdu3rec; reflexivity).
    cbn [obind].
    rewrite (drop_column_ok "evaluations" "updated_at" _ ((evaluations ++ [created_at]) ++ [updated_at]))
      by (rewrite ?lookup_update, ?Hev; try reflexivity; rewrite has_column_app; apply orb_true_r).
    cbn [obind].
    rewrite (drop_column_ok "evaluations" "created_at" _
               (remove_column "updated_at" ((evaluations ++ [created_at]) ++ [updated_at])))
      by (rewrite ?lookup_update, ?Hev; try reflexivity;
          rewrite !remove_column_app, !has_column_app; cbn; rewrite orb_true_r; reflexivity).
    reflexivity.
  - rewrite !map_fst_update; reflexivity.
  - intros table; rewrite !lookup_update.
    destruct (String.eqb_spec table "data_uses") as [-> | Hd];
    [| destruct (String.eqb_spec table "evaluations") as [-> | He]]; simpl.
    + rewrite Hdu; simpl; fold du1 du2 du3.
      rewrite <- !app_assoc; simpl.
      transitivity (recipient :: du1); [exact (perm_remove_column recipient _ Hnd Hrec) |].
      transitivity (recipient :: purpose_of_processing :: du2);
        [apply perm_skip; exact (perm_remove_column purpose_of_processing _ Hnd1 Hpop1) |].
      transitivity (recipient :: purpose_of_processing :: legal_basis :: du3);
        [do 2 apply perm_skip; exact (perm_remove_column legal_basis _ Hnd2 Hlb2) |].
      symmetry; rewrite Permutation_app_comm; simpl.
      transitivity (legal_basis :: recipient :: purpose_of_processing :: du3);
        [apply perm_skip, perm_swap |].
      transitivity (recipient :: legal_basis :: purpose_of_processing :: du3);
        [apply perm_swap |].
      apply perm_skip, perm_swap.
    + rewrite Hev; simpl.
      rewrite !remove_column_app, (remove_column_absent "updated_at" evaluations Hup),
        (remove_column_absent "created_at" evaluations Hcr).
      simpl; rewrite !app_nil_r; reflexivity.
    + destruct (lookup table s); [reflexivity | exact I].
Qed.

End MigrationFacts.

(** * Witnesses of the further properties *)

Lemma compare_depends_on_sets_witness :
  compare_rule_to_declaration ["customer_content"; "customer"]
    ["customer"; "customer_content"; "customer"] ALL =
  compare_rule_to_declaration ["customer"; "customer_content"; "customer_content"]
    ["customer_content"; "customer"] ALL.
Proof.
  apply compare_depends_on_sets; intros v; simpl; tauto.
Defined.

Lemma get_evaluation_policies_key_at_most_one_witness :
  exists ps,
    fst (get_evaluation_policies [policy_b_server; policy_c] [policy_a] (Some "policy_b"%string) [])
    = Ok ps /\
    length ps <= 1 /\
    (forall p, In p ps -> Policy.fides_key p = "policy_b"%string /\
                          (In p [policy_a] \/ In p [policy_b_server; policy_c])) /\
    (snd (get_evaluation_policies [policy_b_server; policy_c] [policy_a] (Some "policy_b"%string) [])
     = [] \/
     snd (get_evaluation_policies [policy_b_server; policy_c] [policy_a] (Some "policy_b"%string) [])
     = [] ++ [RemoteGet "policy" "policy_b"]).
Proof.
  apply get_evaluation_policies_key_at_most_one; discriminate.
Defined.

Lemma get_evaluation_policies_all_extends_local_witness :
  exists added,
    fst (get_evaluation_policies [policy_b_server; policy_c] [policy_a; policy_b] None [])
    = Ok ([policy_a; policy_b] ++ added) /\
    forall p, In p added ->
      In p [policy_b_server; policy_c] /\
      ~ In (Policy.fides_key p) (map Policy.fides_key [policy_a; policy_b]).
Proof.
  apply get_evaluation_policies_all_extends_local; left; reflexivity.
Defined.

Lemma evaluate_executes_resolved_taxonomy_witness :
  In (Executed (execute_evaluation (Taxonomy.mk [policy_a] [system_mailer] [])))
    (snd run_hydrated) /\
  exists policies,
    fst (get_evaluation_policies [] (Taxonomy.policy (parse_a_only "manifests"))
           (Some "policy_a"%string) []) = Ok policies /\
    policies <> [] /\
    let taxonomy := Taxonomy.set_policy (parse_a_only "manifests") policies in
    execute_evaluation (Taxonomy.mk [policy_a] [system_mailer] []) =
      execute_evaluation (match missing_mailer taxonomy with
                          | [] => taxonomy
                          | keys => hydrate_mailer keys taxonomy
                          end) /\
    (forall keys, In (Hydrate keys) (snd run_hydrated) <->
                  keys = missing_mailer taxonomy /\ keys <> []).
Proof.
  assert (Hin : In (Executed (execute_evaluation (Taxonomy.mk [policy_a] [system_mailer] [])))
                  (snd run_hydrated)).
  { vm_compute; repeat (first [left; reflexivity | right]). }
  split; [exact Hin |].
  exact (evaluate_executes_resolved_taxonomy [] parse_a_only missing_mailer hydrate_mailer
           "manifests" (Some "policy_a"%string) "nightly" false
           (fst run_hydrated) (snd run_hydrated) (surjective_pairing _) _ Hin).
Defined.

Lemma upgrade_downgrade_roundtrip_witness :
  exists s1 s2,
    Migration.upgrade schema_before = Some s1 /\ Migration.downgrade s1 = Some s2 /\
    map fst s2 = map fst schema_before /\
    forall table, match Migration.lookup table schema_before, Migration.lookup table s2 with
                  | Some cs, Some cs' => Permutation cs cs'
                  | None, None => True
                  | _, _ => False
                  end.
Proof.
  apply (MigrationFacts.upgrade_downgrade_roundtrip schema_before
           [Migration.mk_col "fides_key" Migration.Text false None None;
            Migration.mk_col "name" Migration.Text true None None]
           [Migration.mk_col "fides_key" Migration.Text false None None;
            Migration.created_at; Migration.updated_at]).
  - reflexivity.
  - repeat split.
  - reflexivity.
  - cbn; repeat (apply NoDup_cons; [simpl; intuition discriminate |]);
    apply NoDup_nil.
  - simpl; split; [right; left | right; right; left]; reflexivity.
Defined.

Lemma upgrade_twice_fails_witness :
  Migration.upgrade schema_before = Some schema_after /\
  Migration.upgrade schema_after = None.
Proof.
  assert (Hup : Migration.upgrade schema_before = Some schema_after)
    by (vm_compute; reflexivity).
  split; [exact Hup | exact (MigrationFacts.upgrade_twice_fails _ _ Hup)].
Defined.

Lemma downgrade_upgrade_roundtrip_witness :
  exists s1 s2,
    Migration.downgrade schema_after = Some s1 /\ Migration.upgrade s1 = Some s2 /\
    map fst s2 = map fst schema_after /\
    forall table, match Migration.lookup table schema_after, Migration.lookup table s2 with
                  | Some cs, Some cs' => Permutation cs cs'
                  | None, None => True
                  | _, _ => False
                  end.
Proof.
  apply (MigrationFacts.downgrade_upgrade_roundtrip schema_after
           [Migration.mk_col "fides_key" Migration.Text false None None;
            Migration.mk_col "name" Migration.Text true None None;
            Migration.legal_basis; Migration.purpose_of_processing; Migration.recipient]
           [Migration.mk_col "fides_key" Migration.Text false None None]).
  - reflexivity.
  - cbn; repeat (apply NoDup_cons; [simpl; intuition discriminate |]);
    apply NoDup_nil.
  - simpl; split; [| split]; right; right; [left | right; left | right; right; left];
      reflexivity.
  - reflexivity.
  - split; reflexivity.
Defined.
